(** * upload_bids: diff, validate and apply edits of a Flywheel query table

    A shallow embedding of [flywheel_bids_tools/upload_bids.py].  The
    Python functions [change_checker], [get_unequal_cells],
    [validate_on_unequal_cells], [upload_to_flywheel],
    [create_nested_fw_dict] and the decision part of [main] are written
    as Rocq functions in a state-and-exception monad over the things the
    script mutates: the module-level list [ERROR_MESSAGES], standard
    output, the provenance files it writes and the calls it makes on the
    Flywheel client.

    Conventions of the model.
    - Strings are sequences of 8-bit characters; [lower] folds the ASCII
      letters only, as [str.lower] does on ASCII text.
    - A cell holds a Python scalar: [str], [int], [bool], [float] or
      [None].  A finite float is carried as its exact rational value
      (what [==] compares) together with the text [str] prints for it.
    - A data frame has the default [RangeIndex], as [pandas.read_csv]
      builds it, so the label of row [i] is [i].
    - A call on the Flywheel client is recorded; [client.get] may fail,
      the two update calls are taken to succeed.
    - Reading the CSV files, [argparse], [tqdm] and the file name of the
      provenance log (it holds the wall-clock time) are outside the
      model. *)

From Stdlib Require Import String Ascii List ZArith QArith Bool Arith Lia.
From Stdlib Require Import DecimalString Sorted.
Import ListNotations.

Local Close Scope Q_scope.
Local Open Scope nat_scope.
Local Open Scope string_scope.
Local Open Scope list_scope.

(** ** Python values *)

Module Py.

Inductive pyfloat : Type :=
| Fnan
| Finf (negative : bool)
| Ffin (value : Q) (text : string).

Inductive pyval : Type :=
| PyStr (s : string)
| PyInt (z : Z)
| PyBool (b : bool)
| PyFloat (f : pyfloat)
| PyNone.

Inductive exn : Type :=
| ShapeMismatch      (* Exception("These dataframes don't have the same ...") *)
| TypeError
| OverflowError
| IndexError
| KeyError
| AttributeError
| ApiException.      (* raised by the Flywheel client *)

Inductive result (A : Type) : Type :=
| Return (a : A)
| Raise (e : exn).
Arguments Return {A} a.
Arguments Raise {A} e.

Definition dquote : string := String (ascii_of_nat 34) EmptyString.
Definition newline : ascii := ascii_of_nat 10.

Definition str_of_nat (n : nat) : string :=
  NilZero.string_of_uint (Nat.to_uint n).

Definition str_of_Z (z : Z) : string :=
  NilZero.string_of_int (Z.to_int z).

(** [str(x)] *)
Definition py_str (v : pyval) : string :=
  match v with
  | PyStr s => s
  | PyInt z => str_of_Z z
  | PyBool true => "True"
  | PyBool false => "False"
  | PyFloat Fnan => "nan"
  | PyFloat (Finf false) => "inf"
  | PyFloat (Finf true) => "-inf"
  | PyFloat (Ffin _ t) => t
  | PyNone => "None"
  end.

Definition lower_char (c : ascii) : ascii :=
  let n := nat_of_ascii c in
  if (65 <=? n)%nat && (n <=? 90)%nat then ascii_of_nat (n + 32) else c.

(** [s.lower()] *)
Fixpoint lower (s : string) : string :=
  match s with
  | EmptyString => EmptyString
  | String c t => String (lower_char c) (lower t)
  end.

(** [x in xs] for a list of strings *)
Definition str_in (x : string) (xs : list string) : bool :=
  existsb (String.eqb x) xs.

(** [type(x) is str] *)
Definition is_str (v : pyval) : bool :=
  match v with PyStr _ => true | _ => false end.

(** The largest magnitude an [int] may have for [float(int)] to succeed:
    from [2^1024 - 2^970] on the conversion rounds up to [2^1024] and
    CPython raises [OverflowError]. *)
Definition float_overflow_bound : Z := 2 ^ 1024 - 2 ^ 970.

(** [math.isnan(x)]: the argument is converted to a C double first, so
    anything that is not a real number raises [TypeError]. *)
Definition math_isnan (v : pyval) : result bool :=
  match v with
  | PyFloat Fnan => Return true
  | PyFloat _ => Return false
  | PyBool _ => Return false
  | PyInt z =>
      if (Z.abs z <? float_overflow_bound)%Z then Return false
      else Raise OverflowError
  | PyStr _ => Raise TypeError
  | PyNone => Raise TypeError
  end.

(** The numeric value of a scalar, for [==]: [bool] is a subclass of
    [int], and an [int] compares with a [float] by exact value. *)
Inductive number : Type :=
| Nnan
| Ninf (negative : bool)
| Nfin (q : Q).

Definition as_number (v : pyval) : option number :=
  match v with
  | PyInt z => Some (Nfin (inject_Z z))
  | PyBool b => Some (Nfin (inject_Z (if b then 1 else 0)))
  | PyFloat Fnan => Some Nnan
  | PyFloat (Finf s) => Some (Ninf s)
  | PyFloat (Ffin q _) => Some (Nfin q)
  | PyStr _ | PyNone => None
  end.

Definition number_eqb (a b : number) : bool :=
  match a, b with
  | Nfin p, Nfin q => Qeq_bool p q
  | Ninf s, Ninf t => Bool.eqb s t
  | _, _ => false
  end.

(** [a == b] on scalars *)
Definition py_eq (a b : pyval) : bool :=
  match a, b with
  | PyStr s, PyStr t => String.eqb s t
  | PyNone, PyNone => true
  | _, _ =>
      match as_number a, as_number b with
      | Some x, Some y => number_eqb x y
      | _, _ => false
      end
  end.

End Py.
Import Py.

(** ** Regular expressions

    The fragment of Python's [re] that the three file-name patterns use:
    literals, the class [[a-zA-Z0-9]+], optional groups, concatenation
    and the anchors.  Groups only capture, so they are not represented.
    The matcher is a backtracking one in continuation-passing style: it
    answers whether some way of matching exists, which is all
    [bool(pattern.match(s))] observes. *)

Module Re.

Inductive regex : Type :=
| Bol                       (* ^ *)
| Eol                       (* $ *)
| Lit (s : string)
| Alnums                    (* [a-zA-Z0-9]+ *)
| Opt (r : regex)           (* (r)? *)
| Cat (r1 r2 : regex).

Definition is_alnum (c : ascii) : bool :=
  let n := nat_of_ascii c in
  ((97 <=? n) && (n <=? 122) || (65 <=? n) && (n <=? 90)
   || (48 <=? n) && (n <=? 57))%nat.

Fixpoint strip_prefix (p s : string) : option string :=
  match p, s with
  | EmptyString, _ => Some s
  | String a p', String b s' =>
      if Ascii.eqb a b then strip_prefix p' s' else None
  | String _ _, EmptyString => None
  end.

(** One or more alphanumerics, the longest run first. *)
Fixpoint alnum_plus (pos : nat) (s : string)
    (k : nat -> string -> bool) : bool :=
  match s with
  | EmptyString => false
  | String c t => is_alnum c && (alnum_plus (S pos) t k || k (S pos) t)
  end.

(** [$] without [re.MULTILINE]: the end of the string, or just before a
    newline that ends the string. *)
Definition at_end (s : string) : bool :=
  match s with
  | EmptyString => true
  | String c EmptyString => Ascii.eqb c newline
  | _ => false
  end.

Fixpoint rmatch (r : regex) (pos : nat) (s : string)
    (k : nat -> string -> bool) : bool :=
  match r with
  | Bol => (pos =? 0)%nat && k pos s
  | Eol => at_end s && k pos s
  | Lit l =>
      match strip_prefix l s with
      | Some rest => k (pos + String.length l)%nat rest
      | None => false
      end
  | Alnums => alnum_plus pos s k
  | Opt r1 => rmatch r1 pos s k || k pos s
  | Cat r1 r2 => rmatch r1 pos s (fun p t => rmatch r2 p t k)
  end.

(** [bool(r.match(s))] *)
Definition re_match (r : regex) (s : string) : bool :=
  rmatch r 0 s (fun _ _ => true).

Declare Scope re_scope.
Delimit Scope re_scope with re.
Infix "++" := Cat (right associativity, at level 60) : re_scope.

(** [(_key-(?P<name>[a-zA-Z0-9]+))?] *)
Definition tagged (key : string) : regex :=
  Opt (Lit key ++ Alnums)%re.

(** [\.nii(\.gz)?] *)
Definition nii_suffix : regex := (Lit ".nii" ++ Opt (Lit ".gz"))%re.

Definition anat1 : regex :=
  (Bol ++ Lit "sub-" ++ Alnums ++ tagged "_ses-" ++ tagged "_acq-"
   ++ tagged "_ce-" ++ tagged "_rec-" ++ tagged "_run-"
   ++ Opt (Lit "_" ++ Alnums) ++ nii_suffix ++ Eol)%re.

Definition anat2 : regex :=
  (Bol ++ Lit "sub-" ++ Alnums ++ tagged "_ses-" ++ tagged "_acq-"
   ++ tagged "_ce-" ++ tagged "_rec-" ++ tagged "_run-"
   ++ tagged "_mod-" ++ (Lit "_" ++ Alnums ++ nii_suffix) ++ Eol)%re.

Definition func1 : regex :=
  (Bol ++ Lit "sub-" ++ Alnums ++ tagged "_ses-" ++ tagged "_task-"
   ++ tagged "_acq-" ++ tagged "_ce-" ++ tagged "_dir-" ++ tagged "_rec-"
   ++ tagged "_run-" ++ tagged "_echo-"
   ++ Opt (Lit "_" ++ Alnums) ++ nii_suffix ++ Eol)%re.

End Re.

(** ** The state the script mutates, and its monad *)

(** A nested update dictionary as [create_nested_fw_dict] builds it: a
    value wrapped in one single-key dictionary per path segment. *)
Inductive fwdict : Type :=
| Leaf (v : pyval)
| Dict (k : string) (d : fwdict).

(** What the script asks of the Flywheel client. *)
Inductive call : Type :=
| Get (id : string)
| UpdateInfo (id : string) (file : nat) (payload : fwdict)
| UpdateClassification (id : string) (file : nat) (payload : fwdict).

(** One line of the provenance log: original, modified, row, column. *)
Definition prov_row : Type := (pyval * pyval * nat * string)%type.

Record world : Type := mkWorld {
  ERROR_MESSAGES : list string;
  stdout : list string;
  provenance_files : list (list prov_row);
  remote_calls : list call
}.

(** The state when the module has just been loaded. *)
Definition initial_world : world := mkWorld [] [] [] [].

Definition M (A : Type) : Type := world -> result A * world.

Definition ret {A} (a : A) : M A := fun w => (Return a, w).

Definition raise {A} (e : exn) : M A := fun w => (Raise e, w).

Definition bind {A B} (m : M A) (f : A -> M B) : M B :=
  fun w =>
    match m w with
    | (Return a, w') => f a w'
    | (Raise e, w') => (Raise e, w')
    end.

Definition lift {A} (r : result A) : M A := fun w => (r, w).

Declare Scope py_scope.
Delimit Scope py_scope with py.
Notation "x <- m ;; k" := (bind m (fun x => k))
  (at level 61, m at next level, right associativity) : py_scope.
Notation "m ;; k" := (bind m (fun _ => k))
  (at level 61, right associativity) : py_scope.
Local Open Scope py_scope.

(** [for x in xs: body(x)] *)
Fixpoint for_each {A} (xs : list A) (body : A -> M unit) : M unit :=
  match xs with
  | [] => ret tt
  | x :: rest => body x ;; for_each rest body
  end.

(** [ys = []; for x in xs: ys.append(f(x))] *)
Fixpoint collect {A B} (xs : list A) (f : A -> M B) : M (list B) :=
  match xs with
  | [] => ret []
  | x :: rest => y <- f x ;; ys <- collect rest f ;; ret (y :: ys)
  end.

Definition set_errors (q : list string) (w : world) : world :=
  mkWorld q (stdout w) (provenance_files w) (remote_calls w).

Definition set_stdout (out : list string) (w : world) : world :=
  mkWorld (ERROR_MESSAGES w) out (provenance_files w) (remote_calls w).

Definition set_provenance (p : list (list prov_row)) (w : world) : world :=
  mkWorld (ERROR_MESSAGES w) (stdout w) p (remote_calls w).

Definition set_calls (cs : list call) (w : world) : world :=
  mkWorld (ERROR_MESSAGES w) (stdout w) (provenance_files w) cs.

(** [ERROR_MESSAGES.append(msg)] *)
Definition append_error (msg : string) : M unit :=
  fun w => (Return tt, set_errors (ERROR_MESSAGES w ++ [msg]) w).

(** [ERROR_MESSAGES.pop(0)] *)
Definition pop_error : M string :=
  fun w =>
    match ERROR_MESSAGES w with
    | [] => (Raise IndexError, w)
    | m :: rest => (Return m, set_errors rest w)
    end.

(** [len(ERROR_MESSAGES)] *)
Definition len_errors : M nat :=
  fun w => (Return (length (ERROR_MESSAGES w)), w).

(** [print(line)] *)
Definition print (line : string) : M unit :=
  fun w => (Return tt, set_stdout (stdout w ++ [line]) w).

(** [provenance_df.to_csv(fname, ...)] *)
Definition write_provenance (rows : list prov_row) : M unit :=
  fun w => (Return tt, set_provenance (provenance_files w ++ [rows]) w).

(** A call on the Flywheel client or on one of its objects *)
Definition log_call (c : call) : M unit :=
  fun w => (Return tt, set_calls (remote_calls w ++ [c]) w).

(** ** Data frames *)

Record DataFrame : Type := mkDataFrame {
  columns : list string;
  values : list (list pyval)
}.

(** [df.shape] *)
Definition shape (df : DataFrame) : nat * nat :=
  (length (values df), length (columns df)).

(** Every row has one cell per column, as in any pandas frame. *)
Definition rectangular (df : DataFrame) : Prop :=
  Forall (fun row => length row = length (columns df)) (values df).

(** [xs[i]] *)
Definition index {A} (xs : list A) (i : nat) : result A :=
  match nth_error xs i with
  | Some x => Return x
  | None => Raise IndexError
  end.

(** [df.iloc[r, c]] *)
Definition iloc (df : DataFrame) (r c : nat) : result pyval :=
  match nth_error (values df) r with
  | Some row => index row c
  | None => Raise IndexError
  end.

Fixpoint position (name : string) (names : list string) : option nat :=
  match names with
  | [] => None
  | n :: rest =>
      if String.eqb n name then Some 0
      else option_map S (position name rest)
  end.

(** [df.loc[r, name]], for a frame with the default index and distinct
    column names. *)
Definition loc (df : DataFrame) (r : nat) (name : string) : result pyval :=
  match nth_error (values df) r, position name (columns df) with
  | Some row, Some c => index row c
  | _, _ => Raise KeyError
  end.

(** [pandas.isna] on a scalar *)
Definition isna (v : pyval) : bool :=
  match v with
  | PyFloat Fnan => true
  | PyNone => true
  | _ => false
  end.

(** The effect of [df.fillna(0)] on one cell *)
Definition fillna0 (v : pyval) : pyval :=
  if isna v then PyInt 0 else v.

(** [df.fillna(0).values] *)
Definition fillna0_values (df : DataFrame) : list (list pyval) :=
  map (map fillna0) (values df).

(** ** [change_checker] *)

Definition drop_down_bool : list (string * list string) :=
  [ ("ignore", ["true"; "false"]);
    ("valid", ["true"; "false"]) ].

Definition drop_down_single_fields : list (string * list string) :=
  [ ("modality", [EmptyString; "mr"; "ct"; "pet"; "us"; "eeg"; "ieeg";
                  "x-ray"; "ecg"; "meg"; "nirs"]) ].

Definition string_fields : list string :=
  [ "acquisition.label"; "project.label"; "error_message";
    "subject.label"; "folder"; "template";
    "intendedfor"; "mod"; "path"; "rec"; "task"; "run" ].

Definition keys {V} (d : list (string * V)) : list string := map fst d.

Definition msg_bool : string :=
  "This field accepts booleans, these can only be written as "
  ++ dquote ++ "True" ++ dquote ++ " or " ++ dquote ++ "False" ++ dquote
  ++ "!".

Definition msg_drop_down : string :=
  "This field must match one of the available options in the drop-down menu on the website!".

Definition msg_string : string := "This field only accepts strings!".

Definition msg_bids : string := "This field MUST be a BIDS compliant name!".

Definition msg_acquisition_id : string :=
  "You cannot edit the acquisition ID!".

Definition change_checker (user_input : pyval) (column : string) : M bool :=
  (* try boolean drop down option *)
  if str_in (lower column) (keys drop_down_bool) then
    if String.eqb (lower (py_str user_input)) "true"
       || String.eqb (lower (py_str user_input)) "false"
    then ret true
    else append_error msg_bool ;; ret false
  (* try drop down string option *)
  else if str_in (lower column) (keys drop_down_single_fields) then
    if existsb (fun item => str_in (lower (py_str user_input)) (snd item))
               drop_down_single_fields
    then ret true
    else append_error msg_drop_down ;; ret false
  (* try generic string *)
  else if str_in (lower column) string_fields then
    ok <- (if is_str user_input then ret true
           else lift (math_isnan user_input)) ;;
    if ok then ret true
    else append_error msg_string ;; ret false
  (* try the filename separately *)
  else if String.eqb (lower column) "filename" then
    if Re.re_match Re.anat1 (py_str user_input) then ret true
    else if Re.re_match Re.anat2 (py_str user_input) then ret true
    else if Re.re_match Re.func1 (py_str user_input) then ret true
    else append_error msg_bids ;; ret false
  (* can't edit acquisition ID tho! *)
  else if String.eqb column "acquisition.id" then
    append_error msg_acquisition_id ;; ret false
  else ret true.

(** ** [get_unequal_cells] *)

Fixpoint map2 {A B C} (f : A -> B -> C) (xs : list A) (ys : list B)
    : list C :=
  match xs, ys with
  | x :: xs', y :: ys' => f x y :: map2 f xs' ys'
  | _, _ => []
  end.

(** Elementwise [a == b] of two arrays of the same shape, each pair of
    cells compared as Python compares the two scalars.  (When every
    column is numeric pandas hands over float64 arrays; the two ways of
    comparing agree on integers that a float64 holds exactly.) *)
Definition array_eq (a b : list (list pyval)) : list (list bool) :=
  map2 (map2 py_eq) a b.

(** Elementwise [a == False] of a boolean array *)
Definition array_eq_False (a : list (list bool)) : list (list bool) :=
  map (map negb) a.

Fixpoint where_row (r c : nat) (bs : list bool) : list (nat * nat) :=
  match bs with
  | [] => []
  | b :: rest =>
      (if b then [(r, c)] else []) ++ where_row r (S c) rest
  end.

Fixpoint where_from (r : nat) (a : list (list bool)) : list (nat * nat) :=
  match a with
  | [] => []
  | row :: rest => where_row r 0 row ++ where_from (S r) rest
  end.

(** [np.dstack(np.where(a))[0].tolist()]: the positions of the true
    entries, rows first. *)
Definition np_where (a : list (list bool)) : list (nat * nat) :=
  where_from 0 a.

Definition get_unequal_cells (df1 df2 : DataFrame) (provenance : bool)
    : M (list (nat * nat)) :=
  if negb (Nat.eqb (fst (shape df1)) (fst (shape df2))
           && Nat.eqb (snd (shape df1)) (snd (shape df2)))
  then raise ShapeMismatch
  else
    let comparison_array :=
      array_eq (fillna0_values df1) (fillna0_values df2) in
    let indices := np_where (array_eq_False comparison_array) in
    (if provenance then
       lst <- collect indices (fun pair =>
                original <- lift (iloc df1 (fst pair) (snd pair)) ;;
                modified <- lift (iloc df2 (fst pair) (snd pair)) ;;
                column <- lift (index (columns df1) (snd pair)) ;;
                ret (original, modified, fst pair, column)) ;;
       write_provenance lst
     else ret tt) ;;
    ret indices.

(** ** [validate_on_unequal_cells] *)

Definition msg_header : string :=
  "The following changes don't seem to be valid for this data:".

(** ["Row {}, Column {}, \"{}\"".format(r, c, v)] *)
Definition format_cell (r c : nat) (v : pyval) : string :=
  "Row " ++ str_of_nat r ++ ", Column " ++ str_of_nat c ++ ", "
  ++ dquote ++ py_str v ++ dquote.

Definition validate_on_unequal_cells (indices_list : list (nat * nat))
    (changed_df : DataFrame) : M bool :=
  valid <- collect indices_list (fun pair =>
             v <- lift (iloc changed_df (fst pair) (snd pair)) ;;
             column <- lift (index (columns changed_df) (snd pair)) ;;
             change_checker v column) ;;
  if forallb (fun b => b) valid then ret true
  else
    print msg_header ;;
    for_each (seq 0 (length valid)) (fun x =>
      ok <- lift (index valid x) ;;
      if negb ok then
        print EmptyString ;;
        pair <- lift (index indices_list x) ;;
        v <- lift (iloc changed_df (fst pair) (snd pair)) ;;
        print (format_cell (fst pair + 1) (snd pair + 1) v) ;;
        msg <- pop_error ;;
        print msg
      else ret tt) ;;
    ret false.

(** ** [upload_to_flywheel] *)

Fixpoint create_nested_fw_dict (tree_list : list string) (value : pyval)
    : fwdict :=
  match tree_list with
  | k :: rest => Dict k (create_nested_fw_dict rest value)
  | [] => Leaf value
  end.

(** [s.split(sep)] for a one-character separator *)
Fixpoint str_split (sep : ascii) (s : string) : list string :=
  match s with
  | EmptyString => [EmptyString]
  | String c t =>
      if Ascii.eqb c sep then EmptyString :: str_split sep t
      else match str_split sep t with
           | h :: rest => String c h :: rest
           | [] => [String c EmptyString]
           end
  end.

Definition underscore : ascii := ascii_of_nat 95.

(** A file of an acquisition; only its [type] is read. *)
Record FileEntry : Type := mkFile { f_type : pyval }.

(** An acquisition container with its [files]. *)
Record Acquisition : Type := mkAcquisition { files : list FileEntry }.

(** The Flywheel client: [client.get(id)] finds a container or fails. *)
Definition Client : Type := string -> option Acquisition.

Definition client_get (client : Client) (id : string) : M Acquisition :=
  log_call (Get id) ;;
  match client id with
  | Some a => ret a
  | None => raise ApiException
  end.

Fixpoint enumerate_from {A} (i : nat) (xs : list A) : list (nat * A) :=
  match xs with
  | [] => []
  | x :: rest => (i, x) :: enumerate_from (S i) rest
  end.

(** [[f for f in fw_object.files if f.type == file_type]], each file
    with its position in [fw_object.files]. *)
Definition files_of_type (fw_object : Acquisition) (file_type : pyval)
    : list (nat * FileEntry) :=
  filter (fun f => py_eq (f_type (snd f)) file_type)
         (enumerate_from 0 (files fw_object)).

(** The body of the loop of [upload_to_flywheel] *)
Definition upload_cell (modified_df : DataFrame) (client : Client)
    (pair : nat * nat) : M unit :=
  (* get the acquisition id *)
  acquisition <- lift (loc modified_df (fst pair) "acquisition.id") ;;
  file_type <- lift (loc modified_df (fst pair) "type") ;;
  (* get the flywheel object of the acquisition *)
  fw_object <- client_get client (py_str acquisition) ;;
  (* create the update dictionary *)
  column <- lift (index (columns modified_df) (snd pair)) ;;
  let column_list := str_split underscore column in
  value <- lift (iloc modified_df (fst pair) (snd pair)) ;;
  let update := create_nested_fw_dict column_list value in
  f <- lift (index (files_of_type fw_object file_type) 0) ;;
  match update with
  | Leaf _ => raise AttributeError
  | Dict k d =>
      (if String.eqb k "info"
       then log_call (UpdateInfo (py_str acquisition) (fst f) d)
       else ret tt) ;;
      (if String.eqb k "classification"
       then log_call (UpdateClassification (py_str acquisition) (fst f) d)
       else ret tt)
  end.

Definition upload_to_flywheel (modified_df : DataFrame)
    (change_index : list (nat * nat)) (client : Client) : M unit :=
  for_each change_index (upload_cell modified_df client).

(** ** [main], from the two frames it has read *)

Definition main (df_original df_modified : DataFrame) (fw : Client)
    : M unit :=
  (* check for equality of each cell between the original and modified *)
  unequal <- get_unequal_cells df_original df_modified true ;;
  (* if any unequal, assess the validity of the modification *)
  res <- validate_on_unequal_cells unequal df_modified ;;
  n <- len_errors ;;
  if Nat.eqb n 0 && res then
    print "Changes appear to be valid! Uploading..." ;;
    upload_to_flywheel df_modified unequal fw ;;
    print "Done!"
  else
    print "Exiting...".

(** * Notions used in the statements *)

(** What one call of [change_checker] does, seen from a fresh queue: its
    outcome and the messages it appends. *)
Definition check (v : pyval) (column : string)
    : result bool * list string :=
  let r := change_checker v column initial_world in
  (fst r, ERROR_MESSAGES (snd r)).

(** The values a cell read from a CSV file can hold: text, a boolean, a
    float, or an integer of the 64-bit range. *)
Definition csv_scalar (v : pyval) : bool :=
  match v with
  | PyStr _ | PyBool _ | PyFloat _ => true
  | PyInt z => ((- 2 ^ 63 <=? z) && (z <? 2 ^ 64))%Z
  | PyNone => false
  end.

Definition is_nan (v : pyval) : bool :=
  match v with PyFloat Fnan => true | _ => false end.

(** The coordinates [get_unequal_cells] computes. *)
Definition unequal_indices (df1 df2 : DataFrame) : list (nat * nat) :=
  np_where (array_eq_False
              (array_eq (fillna0_values df1) (fillna0_values df2))).

(** The provenance line of one coordinate. *)
Definition prov_row_of (df1 df2 : DataFrame) (pair : nat * nat)
    : result prov_row :=
  match iloc df1 (fst pair) (snd pair) with
  | Raise e => Raise e
  | Return original =>
      match iloc df2 (fst pair) (snd pair) with
      | Raise e => Raise e
      | Return modified =>
          match index (columns df1) (snd pair) with
          | Raise e => Raise e
          | Return column => Return (original, modified, fst pair, column)
          end
      end
  end.

(** Missing on one side and a number equal to 0 on the other. *)
Definition missing_vs_zero (v1 v2 : pyval) : Prop :=
  (isna v1 = true /\ py_eq v2 (PyInt 0) = true)
  \/ (py_eq v1 (PyInt 0) = true /\ isna v2 = true).

(** Two frames that differ in one cell only: [run] is missing in the
    original and 0 in the modified copy. *)
Definition run_missing : DataFrame :=
  mkDataFrame ["acquisition.id"; "run"] [[PyInt 123; PyFloat Fnan]].

Definition run_zero : DataFrame :=
  mkDataFrame ["acquisition.id"; "run"] [[PyInt 123; PyInt 0]].

(** What checking one coordinate of the frame does: its outcome and the
    messages it queues. *)
Definition cell_check (df : DataFrame) (pair : nat * nat)
    : result bool * list string :=
  match iloc df (fst pair) (snd pair) with
  | Raise e => (Raise e, [])
  | Return v =>
      match index (columns df) (snd pair) with
      | Raise e => (Raise e, [])
      | Return column => check v column
      end
  end.

(** The cell was checked and found invalid. *)
Definition rejected (df : DataFrame) (pair : nat * nat) : bool :=
  match fst (cell_check df pair) with
  | Return false => true
  | _ => false
  end.

(** The message that checking the cell queues. *)
Definition diagnostic_of (df : DataFrame) (pair : nat * nat) : string :=
  hd EmptyString (snd (cell_check df pair)).

Definition cell_value (df : DataFrame) (pair : nat * nat) : pyval :=
  match iloc df (fst pair) (snd pair) with
  | Return v => v
  | Raise _ => PyNone
  end.

(** The three lines printed for an invalid cell: a blank line, the
    1-indexed place with the offending value, and the reason. *)
Definition block (df : DataFrame) (cell : (nat * nat) * string)
    : list string :=
  [ EmptyString;
    format_cell (fst (fst cell) + 1) (snd (fst cell) + 1)
                (cell_value df (fst cell));
    snd cell ].

(** What the second loop of [validate_on_unequal_cells] does for one
    coordinate and its verdict. *)
Definition report_cell (df : DataFrame) (pair : nat * nat) (ok : bool)
    : M unit :=
  if negb ok then
    print EmptyString ;;
    v <- lift (iloc df (fst pair) (snd pair)) ;;
    print (format_cell (fst pair + 1) (snd pair + 1) v) ;;
    msg <- pop_error ;;
    print msg
  else ret tt.

(** The second loop, walking the coordinates and the verdicts side by
    side instead of by position. *)
Fixpoint report (df : DataFrame) (cells : list ((nat * nat) * bool))
    : M unit :=
  match cells with
  | [] => ret tt
  | (p, ok) :: rest => report_cell df p ok ;; report df rest
  end.

(** A frame of scalars as [pandas.read_csv] reads them: rectangular,
    every cell a CSV scalar.  ([read_flywheel_csv] goes on to turn the
    text cells of its two classification columns into lists, which the
    cell type does not hold; empty cells of those columns stay NaN.) *)
Definition csv_frame (df : DataFrame) : Prop :=
  rectangular df
  /\ Forall (Forall (fun v => csv_scalar v = true)) (values df).

(** The spec's rejection scenario: the edit changes [acquisition.id]. *)
Definition id_edit_original : DataFrame :=
  mkDataFrame ["acquisition.id"; "type"; "modality"]
              [[PyInt 123; PyStr "nifti"; PyStr "MR"]].

Definition id_edit_modified : DataFrame :=
  mkDataFrame ["acquisition.id"; "type"; "modality"]
              [[PyInt 124; PyStr "nifti"; PyStr "MR"]].

(** The update calls one cell gives rise to, for the file at position
    [file] of the acquisition [id]. *)
Definition dispatch (id : string) (file : nat) (update : fwdict)
    : list call :=
  match update with
  | Leaf _ => []
  | Dict k d =>
      (if String.eqb k "info" then [UpdateInfo id file d] else [])
      ++ (if String.eqb k "classification"
          then [UpdateClassification id file d] else [])
  end.

Definition is_update (c : call) : bool :=
  match c with
  | Get _ => false
  | UpdateInfo _ _ _ | UpdateClassification _ _ _ => true
  end.

(** The calls that change something on the remote side. *)
Definition update_calls (cs : list call) : list call :=
  filter is_update cs.

(** An edit of the column [info_BIDS_Task]. *)
Definition info_edit_modified : DataFrame :=
  mkDataFrame ["acquisition.id"; "type"; "info_BIDS_Task"]
              [[PyInt 123; PyStr "nifti"; PyStr "rest"]].

(** Acquisition 123 with a dicom file and a nifti file. *)
Definition acquisition_123 : Acquisition :=
  mkAcquisition [mkFile (PyStr "dicom"); mkFile (PyStr "nifti")].

Definition single_edit_store : Client :=
  fun id => if String.eqb id "123" then Some acquisition_123 else None.

(** Acquisition 123 with two nifti files. *)
Definition two_nifti_store : Client :=
  fun id =>
    if String.eqb id "123"
    then Some (mkAcquisition [mkFile (PyStr "nifti");
                              mkFile (PyStr "nifti")])
    else None.

(** The spec's single-edit scenario: only [modality] changes, from MR
    to CT. *)
Definition single_edit_original : DataFrame :=
  mkDataFrame ["acquisition.id"; "type"; "modality"]
              [[PyInt 123; PyStr "nifti"; PyStr "MR"]].

Definition single_edit_modified : DataFrame :=
  mkDataFrame ["acquisition.id"; "type"; "modality"]
              [[PyInt 123; PyStr "nifti"; PyStr "CT"]].

(** Row-major order of coordinates: by row, then by column. *)
Definition lex_lt (p q : nat * nat) : Prop :=
  fst p < fst q \/ (fst p = fst q /\ snd p < snd q).

(** Every character is a letter or a digit. *)
Fixpoint all_alnum (s : string) : bool :=
  match s with
  | EmptyString => true
  | String c t => Re.is_alnum c && all_alnum t
  end.

(** [sep.join(parts)] for a one-character separator *)
Fixpoint join (sep : ascii) (parts : list string) : string :=
  match parts with
  | [] => EmptyString
  | [x] => x
  | x :: rest => x ++ String sep (join sep rest)
  end.

(** [c in s] *)
Fixpoint contains (c : ascii) (s : string) : bool :=
  match s with
  | EmptyString => false
  | String a t => Ascii.eqb a c || contains c t
  end.

(** [s.count(c)] *)
Fixpoint count_char (c : ascii) (s : string) : nat :=
  match s with
  | EmptyString => 0
  | String a t => (if Ascii.eqb a c then 1 else 0) + count_char c t
  end.

(** The keys met on the way down a nested update dictionary. *)
Fixpoint dict_path (d : fwdict) : list string :=
  match d with
  | Leaf _ => []
  | Dict k d' => k :: dict_path d'
  end.

(** The value at the bottom of a nested update dictionary. *)
Fixpoint dict_leaf (d : fwdict) : pyval :=
  match d with
  | Leaf v => v
  | Dict _ d' => dict_leaf d'
  end.

(** [d[k1][k2]...] along a path of keys; [None] stands for
    [KeyError]. *)
Fixpoint lookup (path : list string) (d : fwdict) : option fwdict :=
  match path with
  | [] => Some d
  | k :: rest =>
      match d with
      | Dict k' d' => if String.eqb k k' then lookup rest d' else None
      | Leaf _ => None
      end
  end.

(** The column is one the apply phase acts on: its first segment is
    [info] or [classification]. *)
Definition applied_column (column : string) : bool :=
  let k := hd EmptyString (str_split underscore column) in
  String.eqb k "info" || String.eqb k "classification".

(** What the loop body of [upload_to_flywheel] does for one coordinate:
    its outcome and the calls it makes. *)
Definition cell_outcome (df : DataFrame) (client : Client)
    (pair : nat * nat) : result unit * list call :=
  match loc df (fst pair) "acquisition.id" with
  | Raise e => (Raise e, [])
  | Return acquisition =>
      match loc df (fst pair) "type" with
      | Raise e => (Raise e, [])
      | Return file_type =>
          let id := py_str acquisition in
          match client id with
          | None => (Raise ApiException, [Get id])
          | Some fw_object =>
              match index (columns df) (snd pair) with
              | Raise e => (Raise e, [Get id])
              | Return column =>
                  match iloc df (fst pair) (snd pair) with
                  | Raise e => (Raise e, [Get id])
                  | Return value =>
                      match files_of_type fw_object file_type with
                      | [] => (Raise IndexError, [Get id])
                      | f :: _ =>
                          (Return tt,
                           Get id
                           :: dispatch id (fst f)
                                (create_nested_fw_dict
                                   (str_split underscore column) value))
                      end
                  end
              end
          end
      end
  end.

(** ** [relist_item] *)

(** The characters [str.strip] removes from ASCII text. *)
Definition is_space (c : ascii) : bool :=
  let n := nat_of_ascii c in
  ((9 <=? n) && (n <=? 13) || (28 <=? n) && (n <=? 32))%nat.

(** [s.lstrip()] *)
Fixpoint lstrip (s : string) : string :=
  match s with
  | EmptyString => EmptyString
  | String c t => if is_space c then lstrip t else s
  end.

(** [s.rstrip()] *)
Fixpoint rstrip (s : string) : string :=
  match s with
  | EmptyString => EmptyString
  | String c t =>
      match rstrip t with
      | EmptyString => if is_space c then EmptyString
                       else String c EmptyString
      | r => String c r
      end
  end.

(** [s.strip()] *)
Definition strip (s : string) : string := rstrip (lstrip s).

(** A cell after [relist_item]: left as it was, or turned into a list
    of strings. *)
Inductive relisted : Type :=
| Unchanged (v : pyval)
| Items (items : list string).

Definition comma : ascii := ascii_of_nat 44.

Definition relist_item (string : pyval) : relisted :=
  match string with
  | PyStr s => Items (map strip (str_split comma s))
  | _ => Unchanged string
  end.

(** The text begins with a character [str.strip] removes. *)
Definition starts_with_space (s : string) : bool :=
  match s with
  | EmptyString => false
  | String c _ => is_space c
  end.

(** The text ends with a character [str.strip] removes. *)
Fixpoint ends_with_space (s : string) : bool :=
  match s with
  | EmptyString => false
  | String c EmptyString => is_space c
  | String _ t => ends_with_space t
  end.

(** The single-edit scenario as [read_flywheel_csv] loads it: the two
    classification columns it requires are there, their cells empty. *)
Definition csv_single_edit_original : DataFrame :=
  mkDataFrame
    ["acquisition.id"; "type"; "modality";
     "classification_Measurement"; "classification_Intent"]
    [[PyInt 123; PyStr "nifti"; PyStr "MR"; PyFloat Fnan; PyFloat Fnan]].

Definition csv_single_edit_modified : DataFrame :=
  mkDataFrame
    ["acquisition.id"; "type"; "modality";
     "classification_Measurement"; "classification_Intent"]
    [[PyInt 123; PyStr "nifti"; PyStr "CT"; PyFloat Fnan; PyFloat Fnan]].

(** The value is one a float64 holds exactly: any value but an integer
    beyond [2^53] in magnitude. *)
Definition float64_exact (v : pyval) : bool :=
  match v with
  | PyInt z => (Z.abs z <=? 2 ^ 53)%Z
  | _ => true
  end.

(** Every cell of the frame is one a float64 holds exactly, so that
    comparing the frame as a float64 array is comparing its cells. *)
Definition float64_exact_frame (df : DataFrame) : Prop :=
  Forall (Forall (fun v => float64_exact v = true)) (values df).

(** * Properties *)

(** ** The field rules *)

Lemma set_errors_same (w : world) : set_errors (ERROR_MESSAGES w) w = w.
Proof. destruct w; reflexivity. Qed.

Lemma set_errors_app_nil (w : world) :
  set_errors (ERROR_MESSAGES w ++ []) w = w.
Proof. rewrite app_nil_r. apply set_errors_same. Qed.

Ltac split_ifs :=
  repeat match goal with
         | |- context [if ?c then _ else _] => destruct c
         end.

(** [change_checker] reads nothing of the state: it only appends to the
    queue what [check] lists. *)
Lemma change_checker_check (v : pyval) (column : string) (w : world) :
  change_checker v column w
  = (fst (check v column),
     set_errors (ERROR_MESSAGES w ++ snd (check v column)) w).
Proof.
  unfold check, change_checker.
  destruct (str_in (lower column) (keys drop_down_bool)).
  { split_ifs; cbn; now rewrite ?set_errors_app_nil. }
  destruct (str_in (lower column) (keys drop_down_single_fields)).
  { split_ifs; cbn; now rewrite ?set_errors_app_nil. }
  destruct (str_in (lower column) string_fields).
  { unfold bind, lift, ret.
    destruct (is_str v).
    - cbn. now rewrite set_errors_app_nil.
    - destruct (math_isnan v) as [[|]|e]; cbn;
        now rewrite ?set_errors_app_nil. }
  destruct (String.eqb (lower column) "filename").
  { split_ifs; cbn; now rewrite ?set_errors_app_nil. }
  split_ifs; cbn; now rewrite ?set_errors_app_nil.
Qed.

(** One call either accepts and appends nothing, or rejects and appends
    one message, or raises and appends nothing. *)
Lemma check_cases (v : pyval) (column : string) :
  check v column = (Return true, [])
  \/ (exists m, check v column = (Return false, [m]))
  \/ (exists e, check v column = (Raise e, [])).
Proof.
  unfold check, change_checker.
  destruct (str_in (lower column) (keys drop_down_bool)).
  { split_ifs; cbn; eauto. }
  destruct (str_in (lower column) (keys drop_down_single_fields)).
  { split_ifs; cbn; eauto. }
  destruct (str_in (lower column) string_fields).
  { unfold bind, lift, ret.
    destruct (is_str v); [cbn; eauto|].
    destruct (math_isnan v) as [[|]|e]; cbn; eauto. }
  destruct (String.eqb (lower column) "filename").
  { split_ifs; cbn; eauto. }
  split_ifs; cbn; eauto.
Qed.

Lemma math_isnan_csv_scalar (v : pyval) :
  csv_scalar v = true -> is_str v = false ->
  math_isnan v = Return (is_nan v).
Proof.
  intros Hv Hs.
  destruct v as [s|z|b|f|]; try discriminate.
  - unfold csv_scalar in Hv. unfold math_isnan, is_nan.
    apply andb_true_iff in Hv as [Hlo Hhi].
    apply Z.leb_le in Hlo. apply Z.ltb_lt in Hhi.
    assert (Hb : (Z.abs z <? float_overflow_bound)%Z = true).
    { apply Z.ltb_lt.
      assert ((2 ^ 64 < float_overflow_bound)%Z) by (vm_compute; reflexivity).
      assert ((2 ^ 63 < 2 ^ 64)%Z) by (vm_compute; reflexivity).
      lia. }
    now rewrite Hb.
  - reflexivity.
  - now destruct f.
Qed.

(** The free-string columns are none of the drop-down columns, so the
    third rule is the one that sees them. *)
Lemma string_field_not_drop_down (c : string) :
  str_in c string_fields = true ->
  str_in c (keys drop_down_bool) = false
  /\ str_in c (keys drop_down_single_fields) = false.
Proof.
  unfold str_in. intros H.
  apply existsb_exists in H as [x [Hin Heq]].
  apply String.eqb_eq in Heq. subst x.
  cbn in Hin.
  repeat (destruct Hin as [Hin | Hin]; [subst c; split; reflexivity|]).
  contradiction.
Qed.

(** The string rule on the values a CSV cell can hold. *)
Lemma string_rule (v : pyval) (column : string) (w : world) :
  str_in (lower column) string_fields = true ->
  csv_scalar v = true ->
  change_checker v column w
  = if is_str v || is_nan v then (Return true, w)
    else (Return false, set_errors (ERROR_MESSAGES w ++ [msg_string]) w).
Proof.
  intros Hcol Hv. unfold change_checker.
  destruct (string_field_not_drop_down _ Hcol) as [H1 H2].
  rewrite H1, H2, Hcol. unfold bind, lift, ret.
  destruct (is_str v) eqn:Hs; [reflexivity|].
  rewrite (math_isnan_csv_scalar v Hv Hs). cbn.
  now destruct (is_nan v).
Qed.

Lemma check_csv_scalar (v : pyval) (column : string) :
  csv_scalar v = true -> exists b, fst (check v column) = Return b.
Proof.
  intros Hv. unfold check, change_checker.
  destruct (str_in (lower column) (keys drop_down_bool)).
  { split_ifs; cbn; eauto. }
  destruct (str_in (lower column) (keys drop_down_single_fields)).
  { split_ifs; cbn; eauto. }
  destruct (str_in (lower column) string_fields).
  { unfold bind, lift, ret.
    destruct (is_str v) eqn:Hs; [cbn; eauto|].
    rewrite (math_isnan_csv_scalar v Hv Hs).
    destruct (is_nan v); cbn; eauto. }
  destruct (String.eqb (lower column) "filename").
  { split_ifs; cbn; eauto. }
  split_ifs; cbn; eauto.
Qed.

(** C2, as the code has it.  For every value a CSV cell can hold (a
    string, a boolean, a float, or an integer of the 64-bit range) and
    every column name, [change_checker] returns a boolean and does not
    raise: it either accepts and leaves the state alone, or rejects and
    appends one message.  On a free-string column such as
    [acquisition.label] it accepts a string and the float NaN, and
    rejects every other such value with the strings-only message. *)
Theorem change_checker_total_on_csv_scalars
    (v : pyval) (column : string) (w : world) :
  csv_scalar v = true ->
  (change_checker v column w = (Return true, w)
   \/ exists m, change_checker v column w
                = (Return false, set_errors (ERROR_MESSAGES w ++ [m]) w))
  /\ (str_in (lower column) string_fields = true ->
      change_checker v column w
      = if is_str v || is_nan v then (Return true, w)
        else (Return false,
              set_errors (ERROR_MESSAGES w ++ [msg_string]) w)).
Proof.
  intros Hv. split.
  - rewrite change_checker_check.
    destruct (check_csv_scalar v column Hv) as [b Hb].
    destruct (check_cases v column) as [H | [[m H] | [e H]]];
      rewrite H in *; cbn in *.
    + left. now rewrite set_errors_app_nil.
    + right. now exists m.
    + discriminate.
  - intros Hcol. now apply string_rule.
Qed.

(** The theorem at the integer 7 in the column [acquisition.label]. *)
Lemma change_checker_total_on_csv_scalars_witness :
  csv_scalar (PyInt 7) = true
  /\ change_checker (PyInt 7) "acquisition.label" initial_world
     = (Return false, set_errors [msg_string] initial_world).
Proof.
  split; [reflexivity|].
  exact (proj2 (change_checker_total_on_csv_scalars
                  (PyInt 7) "acquisition.label" initial_world eq_refl)
               eq_refl).
Defined.

(** C2 as stated fails: the float NaN is not a string, yet in the
    free-string column [acquisition.label] it is accepted, with no
    message queued. *)
Lemma nan_accepted_in_string_field :
  is_str (PyFloat Fnan) = false
  /\ change_checker (PyFloat Fnan) "acquisition.label" initial_world
     = (Return true, initial_world)
  /\ ~ (exists w, change_checker (PyFloat Fnan) "acquisition.label"
                    initial_world = (Return false, w)).
Proof.
  split; [reflexivity|]. split; [reflexivity|].
  intros [w H]. discriminate H.
Qed.

(** C7.  Whatever the value, [change_checker] on the column
    [acquisition.id] returns [False] and appends the cannot-edit message
    to the queue. *)
Theorem acquisition_id_always_rejected (v : pyval) (w : world) :
  change_checker v "acquisition.id" w
  = (Return false,
     set_errors (ERROR_MESSAGES w ++ [msg_acquisition_id]) w).
Proof. reflexivity. Qed.

(** C8.  The name [sub-01_ses-02_task-rest_bold.nii.gz] matches one of
    the three grammars (the functional one) and is accepted in the
    [filename] column; [not_a_bids_name.txt] matches none and is
    rejected, the BIDS message being queued. *)
Theorem filename_vectors (w : world) :
  (Re.re_match Re.anat1 "sub-01_ses-02_task-rest_bold.nii.gz"
   || Re.re_match Re.anat2 "sub-01_ses-02_task-rest_bold.nii.gz"
   || Re.re_match Re.func1 "sub-01_ses-02_task-rest_bold.nii.gz") = true
  /\ change_checker (PyStr "sub-01_ses-02_task-rest_bold.nii.gz")
                    "filename" w
     = (Return true, w)
  /\ change_checker (PyStr "not_a_bids_name.txt") "filename" w
     = (Return false, set_errors (ERROR_MESSAGES w ++ [msg_bids]) w).
Proof.
  split; [vm_compute; reflexivity|].
  split; reflexivity.
Qed.

(** ** The diff *)

Lemma nth_error_map2 {A B C} (f : A -> B -> C) xs ys i :
  nth_error (map2 f xs ys) i
  = match nth_error xs i, nth_error ys i with
    | Some x, Some y => Some (f x y)
    | _, _ => None
    end.
Proof.
  revert ys i. induction xs as [|x xs IH]; intros [|y ys] [|i]; cbn;
    try reflexivity.
  - now destruct (nth_error xs i).
  - apply IH.
Qed.

Lemma In_where_row r c bs r' c' :
  In (r', c') (where_row r c bs)
  <-> r' = r /\ c <= c' /\ nth_error bs (c' - c) = Some true.
Proof.
  revert c. induction bs as [|b bs IH]; intros c; cbn.
  - split; [contradiction|]. intros (_ & _ & H).
    now destruct (c' - c).
  - rewrite in_app_iff, IH. split.
    + intros [H | (-> & Hle & Hn)].
      * destruct b; [|contradiction].
        destruct H as [H|[]]. inversion H; subst.
        rewrite Nat.sub_diag. auto.
      * split; [reflexivity|]. split; [lia|].
        replace (c' - c) with (S (c' - S c)) by lia. exact Hn.
    + intros (-> & Hle & Hn).
      destruct (Nat.eq_dec c c') as [->|Hne].
      * rewrite Nat.sub_diag in Hn. cbn in Hn. inversion Hn; subst.
        left. now left.
      * right. split; [reflexivity|]. split; [lia|].
        replace (c' - c) with (S (c' - S c)) in Hn by lia. exact Hn.
Qed.

Lemma In_where_from r a r' c' :
  In (r', c') (where_from r a)
  <-> r <= r'
      /\ exists row, nth_error a (r' - r) = Some row
                     /\ nth_error row c' = Some true.
Proof.
  revert r. induction a as [|row a IH]; intros r; cbn.
  - split; [contradiction|]. intros (_ & x & H & _).
    now destruct (r' - r).
  - rewrite in_app_iff, In_where_row, IH, Nat.sub_0_r. split.
    + intros [(-> & _ & Hn) | (Hle & x & Hx & Hn)].
      * split; [lia|]. exists row. rewrite Nat.sub_diag. auto.
      * split; [lia|]. exists x.
        replace (r' - r) with (S (r' - S r)) by lia. auto.
    + intros (Hle & x & Hx & Hn).
      destruct (Nat.eq_dec r r') as [->|Hne].
      * rewrite Nat.sub_diag in Hx. cbn in Hx. inversion Hx; subst.
        left. split; [reflexivity|]. split; [lia|exact Hn].
      * right. split; [lia|]. exists x.
        replace (r' - r) with (S (r' - S r)) in Hx by lia. auto.
Qed.

Lemma iloc_Return df r c v :
  iloc df r c = Return v
  <-> exists row, nth_error (values df) r = Some row
                  /\ nth_error row c = Some v.
Proof.
  unfold iloc, index. split.
  - destruct (nth_error (values df) r) as [row|]; [|discriminate].
    destruct (nth_error row c) eqn:E; [|discriminate].
    intros H. inversion H; subst. eauto.
  - intros (row & -> & ->). reflexivity.
Qed.

(** A coordinate is reported exactly when both frames have the cell and
    the two cells, missing values replaced by 0, are not [==]. *)
Lemma In_unequal_indices df1 df2 r c :
  In (r, c) (unequal_indices df1 df2)
  <-> exists v1 v2,
        iloc df1 r c = Return v1 /\ iloc df2 r c = Return v2
        /\ py_eq (fillna0 v1) (fillna0 v2) = false.
Proof.
  unfold unequal_indices, np_where, array_eq_False, array_eq,
    fillna0_values.
  rewrite In_where_from, Nat.sub_0_r. split.
  - intros (_ & row & Hrow & Hc).
    rewrite nth_error_map, nth_error_map2, !nth_error_map in Hrow.
    destruct (nth_error (values df1) r) as [row1|] eqn:E1; [|discriminate].
    destruct (nth_error (values df2) r) as [row2|] eqn:E2; [|discriminate].
    cbn [option_map] in Hrow. inversion Hrow; subst row. clear Hrow.
    rewrite nth_error_map, nth_error_map2, !nth_error_map in Hc.
    destruct (nth_error row1 c) as [v1|] eqn:C1; [|discriminate].
    destruct (nth_error row2 c) as [v2|] eqn:C2; [|discriminate].
    cbn [option_map] in Hc. exists v1, v2.
    split; [apply iloc_Return; eauto|].
    split; [apply iloc_Return; eauto|].
    inversion Hc as [Hn]. now apply negb_true_iff in Hn.
  - intros (v1 & v2 & H1 & H2 & Hne).
    apply iloc_Return in H1 as (row1 & E1 & C1).
    apply iloc_Return in H2 as (row2 & E2 & C2).
    split; [lia|].
    exists (map negb (map2 py_eq (map fillna0 row1) (map fillna0 row2))).
    split.
    + rewrite nth_error_map, nth_error_map2, !nth_error_map.
      now rewrite E1, E2.
    + rewrite nth_error_map, nth_error_map2, !nth_error_map.
      rewrite C1, C2. cbn [option_map]. now rewrite Hne.
Qed.

Lemma prov_row_of_bind df1 df2 pair w :
  (original <- lift (iloc df1 (fst pair) (snd pair)) ;;
   modified <- lift (iloc df2 (fst pair) (snd pair)) ;;
   column <- lift (index (columns df1) (snd pair)) ;;
   ret (original, modified, fst pair, column)) w
  = (prov_row_of df1 df2 pair, w).
Proof.
  unfold prov_row_of, bind, lift, ret.
  destruct (iloc df1 (fst pair) (snd pair)); [|reflexivity].
  destruct (iloc df2 (fst pair) (snd pair)); [|reflexivity].
  destruct (index (columns df1) (snd pair)); reflexivity.
Qed.

(** A loop whose body only computes leaves the state as it was. *)
Lemma collect_stateless {A B} (f : A -> M B) (g : A -> result B) xs :
  (forall x w, f x w = (g x, w)) ->
  forall w, snd (collect xs f w) = w.
Proof.
  intros Hf. induction xs as [|x xs IH]; intros w; cbn; [reflexivity|].
  unfold bind. rewrite Hf. destruct (g x) as [y|e]; [|reflexivity].
  specialize (IH w). destruct (collect xs f w) as [[ys|e] w'];
    cbn in *; now subst.
Qed.

Lemma collect_stateless_returns {A B} (f : A -> M B) (g : A -> result B)
    xs :
  (forall x w, f x w = (g x, w)) ->
  (forall x, In x xs -> exists y, g x = Return y) ->
  forall w, exists ys, collect xs f w = (Return ys, w).
Proof.
  intros Hf. induction xs as [|x xs IH]; intros Hg w; cbn.
  - now exists [].
  - unfold bind. rewrite Hf.
    destruct (Hg x (or_introl eq_refl)) as [y ->].
    destruct (IH (fun x' H => Hg x' (or_intror H)) w) as [ys ->].
    now exists (y :: ys).
Qed.

Lemma shape_eqb df1 df2 :
  Nat.eqb (fst (shape df1)) (fst (shape df2))
  && Nat.eqb (snd (shape df1)) (snd (shape df2)) = true
  <-> shape df1 = shape df2.
Proof.
  rewrite andb_true_iff, !Nat.eqb_eq.
  destruct (shape df1), (shape df2); cbn. split.
  - now intros [-> ->].
  - intros H. now inversion H.
Qed.

(** When [get_unequal_cells] returns, the frames had one shape, the
    result is [unequal_indices], and nothing but the provenance log has
    changed. *)
Lemma get_unequal_cells_Return df1 df2 prov w idx w' :
  get_unequal_cells df1 df2 prov w = (Return idx, w') ->
  shape df1 = shape df2
  /\ idx = unequal_indices df1 df2
  /\ exists p, w' = set_provenance p w.
Proof.
  unfold get_unequal_cells.
  destruct (Nat.eqb (fst (shape df1)) (fst (shape df2))
            && Nat.eqb (snd (shape df1)) (snd (shape df2))) eqn:Hs;
    cbn [negb]; [|discriminate].
  apply shape_eqb in Hs. fold (unequal_indices df1 df2).
  destruct prov.
  - unfold bind at 1 2.
    pose proof (collect_stateless _ _ (unequal_indices df1 df2)
                  (prov_row_of_bind df1 df2) w) as Hw.
    destruct (collect _ _ w) as [[lst|e] w1]; cbn in Hw; subst w1;
      [|discriminate].
    cbn. intros H. inversion H; subst. eauto.
  - cbn. intros H. inversion H; subst.
    repeat split; auto. exists (provenance_files w'). now destruct w'.
Qed.

(** On two frames of one shape, the first of them rectangular,
    [get_unequal_cells] returns. *)
Lemma get_unequal_cells_returns df1 df2 prov w :
  shape df1 = shape df2 -> rectangular df1 ->
  exists p, get_unequal_cells df1 df2 prov w
            = (Return (unequal_indices df1 df2), set_provenance p w).
Proof.
  intros Hs Hrect. unfold get_unequal_cells.
  apply shape_eqb in Hs. rewrite Hs. cbn [negb].
  fold (unequal_indices df1 df2).
  destruct prov.
  - assert (Hg : forall x, In x (unequal_indices df1 df2) ->
                 exists y, prov_row_of df1 df2 x = Return y).
    { intros [r c] Hin. apply In_unequal_indices in Hin
        as (v1 & v2 & H1 & H2 & _).
      unfold prov_row_of. cbn [fst snd]. rewrite H1, H2.
      apply iloc_Return in H1 as (row & Hrow & Hc).
      assert (Hlen : length row = length (columns df1)).
      { unfold rectangular in Hrect. rewrite Forall_forall in Hrect.
        apply Hrect. eapply nth_error_In; eauto. }
      assert (Hlt : c < length (columns df1)).
      { rewrite <- Hlen. apply nth_error_Some. congruence. }
      unfold index.
      destruct (nth_error (columns df1) c) eqn:E; [eauto|].
      apply nth_error_None in E. lia. }
    match goal with
    | |- context [collect ?xs ?f] =>
        destruct (collect_stateless_returns f (prov_row_of df1 df2) xs
                    (prov_row_of_bind df1 df2) Hg w) as [lst Hl]
    end.
    unfold bind at 1 2. rewrite Hl.
    exists (provenance_files w ++ [lst]). reflexivity.
  - cbn. exists (provenance_files w). now destruct w.
Qed.

(** C9.  For two frames whose row counts or column counts differ,
    [get_unequal_cells] raises the shape-mismatch exception and does
    nothing else: no cell is compared, no provenance log is written and
    neither frame is cut or filled to fit. *)
Theorem shape_mismatch_raises (df1 df2 : DataFrame) (prov : bool)
    (w : world) :
  shape df1 <> shape df2 ->
  get_unequal_cells df1 df2 prov w = (Raise ShapeMismatch, w).
Proof.
  intros Hne. unfold get_unequal_cells.
  destruct (Nat.eqb (fst (shape df1)) (fst (shape df2))
            && Nat.eqb (snd (shape df1)) (snd (shape df2))) eqn:Hs.
  - apply shape_eqb in Hs. contradiction.
  - reflexivity.
Qed.

(** The theorem on a frame of two columns against one of three. *)
Lemma shape_mismatch_raises_witness :
  get_unequal_cells
    (mkDataFrame ["acquisition.id"; "type"]
                 [[PyInt 123; PyStr "nifti"]])
    (mkDataFrame ["acquisition.id"; "type"; "modality"]
                 [[PyInt 123; PyStr "nifti"; PyStr "MR"]])
    true initial_world
  = (Raise ShapeMismatch, initial_world).
Proof.
  apply shape_mismatch_raises. cbn. discriminate.
Defined.

Lemma number_eqb_sym (a b : number) : number_eqb a b = number_eqb b a.
Proof.
  destruct a as [|s|p], b as [|t|q]; cbn [number_eqb]; try reflexivity.
  - now destruct s, t.
  - destruct (Qeq_bool p q) eqn:E; symmetry.
    + apply Qeq_bool_iff. symmetry. now apply Qeq_bool_iff.
    + destruct (Qeq_bool q p) eqn:E'; [|reflexivity].
      apply Qeq_bool_iff in E'. symmetry in E'.
      apply Qeq_bool_iff in E'. congruence.
Qed.

Lemma py_eq_sym (a b : pyval) : py_eq a b = py_eq b a.
Proof.
  destruct a as [s|z|b1|f|], b as [t|y|b2|g|]; cbn [py_eq as_number];
    try reflexivity; try apply String.eqb_sym;
    try (destruct f); try (destruct g); try apply number_eqb_sym;
    reflexivity.
Qed.

Lemma py_eq_zero_fillna0 (v : pyval) :
  py_eq v (PyInt 0) = true ->
  py_eq (PyInt 0) (fillna0 v) = true /\ py_eq (fillna0 v) (PyInt 0) = true.
Proof.
  intros H.
  assert (Hna : isna v = false).
  { destruct v as [s|z|b|[| |q t]|]; try reflexivity; discriminate H. }
  unfold fillna0. rewrite Hna. split; [|exact H].
  now rewrite py_eq_sym.
Qed.

Lemma missing_vs_zero_equal (v1 v2 : pyval) :
  missing_vs_zero v1 v2 -> py_eq (fillna0 v1) (fillna0 v2) = true.
Proof.
  intros [[Hna Hz] | [Hz Hna]].
  - unfold fillna0 at 1. rewrite Hna. now apply py_eq_zero_fillna0.
  - unfold fillna0 at 2. rewrite Hna. now apply py_eq_zero_fillna0.
Qed.

(** C10.  On two frames of one shape [get_unequal_cells] returns, and a
    cell that is missing (NaN or [None]) in one frame and holds a number
    equal to 0 in the other is not among the coordinates returned:
    missing values are replaced by 0 before the comparison. *)
Theorem missing_equals_zero (df1 df2 : DataFrame) (prov : bool)
    (w : world) (r c : nat) (v1 v2 : pyval) :
  shape df1 = shape df2 -> rectangular df1 ->
  iloc df1 r c = Return v1 -> iloc df2 r c = Return v2 ->
  missing_vs_zero v1 v2 ->
  exists idx w',
    get_unequal_cells df1 df2 prov w = (Return idx, w')
    /\ ~ In (r, c) idx.
Proof.
  intros Hs Hrect H1 H2 Hmz.
  destruct (get_unequal_cells_returns df1 df2 prov w Hs Hrect) as [p Hp].
  exists (unequal_indices df1 df2), (set_provenance p w).
  split; [exact Hp|].
  intros Hin. apply In_unequal_indices in Hin
    as (u1 & u2 & Hu1 & Hu2 & Hne).
  rewrite H1 in Hu1. rewrite H2 in Hu2.
  inversion Hu1; inversion Hu2; subst.
  rewrite (missing_vs_zero_equal _ _ Hmz) in Hne. discriminate.
Qed.

(** The theorem on a one-row pair of frames: the [run] cell is NaN in
    the first and 0 in the second. *)
Lemma missing_equals_zero_witness :
  exists idx w',
    get_unequal_cells
      (mkDataFrame ["acquisition.id"; "run"] [[PyInt 123; PyFloat Fnan]])
      (mkDataFrame ["acquisition.id"; "run"] [[PyInt 123; PyInt 0]])
      true initial_world = (Return idx, w')
    /\ ~ In (0, 1) idx.
Proof.
  apply (missing_equals_zero
           (mkDataFrame ["acquisition.id"; "run"]
                        [[PyInt 123; PyFloat Fnan]])
           (mkDataFrame ["acquisition.id"; "run"] [[PyInt 123; PyInt 0]])
           true initial_world 0 1 (PyFloat Fnan) (PyInt 0)).
  - reflexivity.
  - unfold rectangular. cbn. repeat constructor.
  - reflexivity.
  - reflexivity.
  - left. split; reflexivity.
Defined.

(** C3, where the code departs from it.  [run_missing] and [run_zero]
    have one shape and differ in exactly one cell, row 0 column 1 (NaN
    against the integer 0), yet [get_unequal_cells] returns the empty
    list, not the one coordinate [(0, 1)]. *)
Theorem single_difference_missed :
  shape run_missing = shape run_zero
  /\ (forall r c, (r, c) <> (0, 1) ->
        iloc run_missing r c = iloc run_zero r c)
  /\ iloc run_missing 0 1 = Return (PyFloat Fnan)
  /\ iloc run_zero 0 1 = Return (PyInt 0)
  /\ get_unequal_cells run_missing run_zero true initial_world
     = (Return [], set_provenance [[]] initial_world).
Proof.
  split; [reflexivity|]. split.
  - intros r c Hne.
    destruct r as [|r].
    + destruct c as [|[|c]]; [reflexivity| |reflexivity].
      now contradiction Hne.
    + unfold iloc. cbn. now destruct r.
  - repeat split; reflexivity.
Qed.

(** ** Validation *)

Lemma cell_check_bind df pair w :
  (v <- lift (iloc df (fst pair) (snd pair)) ;;
   column <- lift (index (columns df) (snd pair)) ;;
   change_checker v column) w
  = (fst (cell_check df pair),
     set_errors (ERROR_MESSAGES w ++ snd (cell_check df pair)) w).
Proof.
  unfold cell_check, bind, lift.
  destruct (iloc df (fst pair) (snd pair)) as [v|e];
    [|cbn; now rewrite set_errors_app_nil].
  destruct (index (columns df) (snd pair)) as [column|e];
    [|cbn; now rewrite set_errors_app_nil].
  apply change_checker_check.
Qed.

Lemma cell_check_cases df pair :
  cell_check df pair = (Return true, [])
  \/ (exists m, cell_check df pair = (Return false, [m]))
  \/ (exists e, cell_check df pair = (Raise e, [])).
Proof.
  unfold cell_check.
  destruct (iloc df (fst pair) (snd pair)) as [v|e]; [|eauto].
  destruct (index (columns df) (snd pair)) as [column|e]; [|eauto].
  apply check_cases.
Qed.

Lemma cell_check_Return_value df pair b :
  fst (cell_check df pair) = Return b ->
  iloc df (fst pair) (snd pair) = Return (cell_value df pair).
Proof.
  unfold cell_check, cell_value.
  destruct (iloc df (fst pair) (snd pair)); [reflexivity|discriminate].
Qed.

(** The messages queued by checking a run of cells, none raising. *)
Lemma messages_of_cells df idx :
  (forall p, In p idx -> exists b, fst (cell_check df p) = Return b) ->
  flat_map (fun p => snd (cell_check df p)) idx
  = map (diagnostic_of df) (filter (rejected df) idx).
Proof.
  induction idx as [|p idx IH]; intros Hret; [reflexivity|].
  cbn [flat_map filter]. rewrite IH by (intros; apply Hret; now right).
  destruct (Hret p (or_introl eq_refl)) as [b Hb].
  unfold rejected.
  destruct (cell_check_cases df p) as [H | [[m H] | [e H]]];
    rewrite H in *; cbn [fst snd app map] in *.
  - reflexivity.
  - f_equal. unfold diagnostic_of. now rewrite H.
  - discriminate.
Qed.

(** The first loop of [validate_on_unequal_cells]. *)
Lemma collect_cell_checks df idx w :
  match collect idx (fun pair =>
          v <- lift (iloc df (fst pair) (snd pair)) ;;
          column <- lift (index (columns df) (snd pair)) ;;
          change_checker v column) w with
  | (Return valid, w') =>
      (forall p, In p idx -> exists b, fst (cell_check df p) = Return b)
      /\ valid = map (fun p => negb (rejected df p)) idx
      /\ w' = set_errors
                (ERROR_MESSAGES w
                 ++ map (diagnostic_of df) (filter (rejected df) idx)) w
  | (Raise e, _) => exists p, In p idx /\ fst (cell_check df p) = Raise e
  end.
Proof.
  revert w. induction idx as [|p idx IH]; intros w.
  - cbn. rewrite set_errors_app_nil. repeat split. intros p [].
  - cbn [collect]. unfold bind at 1. rewrite cell_check_bind.
    destruct (cell_check_cases df p) as [H | [[m H] | [e H]]].
    + assert (Hr : rejected df p = false)
        by (unfold rejected; now rewrite H).
      rewrite H. cbn [fst snd]. rewrite set_errors_app_nil.
      unfold bind at 1. specialize (IH w).
      destruct (collect idx _ w) as [[valid|e] w'].
      * destruct IH as (Hret & -> & ->). cbn [ret].
        split; [|split].
        -- intros q [Heq|Hq]; [|now apply Hret].
           subst q. rewrite H. cbn [fst]. eauto.
        -- cbn [map]. now rewrite Hr.
        -- cbn [filter]. now rewrite Hr.
      * destruct IH as (q & Hq & He). exists q. split; [now right|easy].
    + assert (Hr : rejected df p = true)
        by (unfold rejected; now rewrite H).
      assert (Hd : diagnostic_of df p = m)
        by (unfold diagnostic_of; now rewrite H).
      rewrite H. cbn [fst snd].
      unfold bind at 1.
      specialize (IH (set_errors (ERROR_MESSAGES w ++ [m]) w)).
      destruct (collect idx _ _) as [[valid|e] w'].
      * destruct IH as (Hret & -> & ->). cbn [ret].
        split; [|split].
        -- intros q [Heq|Hq]; [|now apply Hret].
           subst q. rewrite H. cbn [fst]. eauto.
        -- cbn [map]. now rewrite Hr.
        -- cbn [filter]. rewrite Hr. cbn [map]. rewrite Hd.
           cbn [ERROR_MESSAGES set_errors].
           now rewrite <- app_assoc.
      * destruct IH as (q & Hq & He). exists q. split; [now right|easy].
    + rewrite H. cbn [fst snd]. exists p. split; [now left|].
      now rewrite H.
Qed.

Lemma bind_congr {A B} (m m' : M A) (k k' : A -> M B) (w : world) :
  m w = m' w -> (forall a w', k a w' = k' a w') ->
  bind m k w = bind m' k' w.
Proof.
  intros Hm Hk. unfold bind. rewrite Hm.
  destruct (m' w) as [[a|e] w']; [apply Hk|reflexivity].
Qed.

Lemma index_app_middle {A} (xs : list A) (x : A) (ys : list A) :
  index (xs ++ x :: ys) (length xs) = Return x.
Proof.
  unfold index. rewrite nth_error_app2 by lia.
  now rewrite Nat.sub_diag.
Qed.

Lemma report_loop_from df valid2 :
  forall idx2 valid1 idx1,
    length valid1 = length idx1 -> length valid2 = length idx2 ->
    forall w,
      for_each (seq (length valid1) (length valid2)) (fun x =>
        ok <- lift (index (valid1 ++ valid2) x) ;;
        if negb ok then
          print EmptyString ;;
          pair <- lift (index (idx1 ++ idx2) x) ;;
          v <- lift (iloc df (fst pair) (snd pair)) ;;
          print (format_cell (fst pair + 1) (snd pair + 1) v) ;;
          msg <- pop_error ;;
          print msg
        else ret tt) w
      = report df (combine idx2 valid2) w.
Proof.
  induction valid2 as [|b valid2 IH]; intros [|p idx2] valid1 idx1 H1 H2 w;
    try discriminate H2; [reflexivity|].
  injection H2 as H2.
  specialize (IH idx2 (valid1 ++ [b]) (idx1 ++ [p])).
  rewrite !length_app, <- !app_assoc in IH. cbn [length app] in IH.
  rewrite Nat.add_1_r in IH.
  specialize (IH ltac:(lia) H2).
  cbn [length seq for_each combine report].
  apply bind_congr.
  - rewrite index_app_middle, H1, index_app_middle.
    unfold report_cell. now destruct b.
  - intros _ w'. apply IH.
Qed.

Lemma report_loop df valid idx w :
  length valid = length idx ->
  for_each (seq 0 (length valid)) (fun x =>
    ok <- lift (index valid x) ;;
    if negb ok then
      print EmptyString ;;
      pair <- lift (index idx x) ;;
      v <- lift (iloc df (fst pair) (snd pair)) ;;
      print (format_cell (fst pair + 1) (snd pair + 1) v) ;;
      msg <- pop_error ;;
      print msg
    else ret tt) w
  = report df (combine idx valid) w.
Proof.
  intros H. exact (report_loop_from df valid idx [] [] eq_refl H w).
Qed.

Lemma combine_map_r {A B} (f : A -> B) (xs : list A) :
  combine xs (map f xs) = map (fun x => (x, f x)) xs.
Proof. induction xs; cbn; congruence. Qed.

(** The report pops one message per rejected cell off the front of the
    queue and prints it under that cell. *)
Lemma report_spec df idx :
  forall w,
    (forall p, In p idx -> exists b, fst (cell_check df p) = Return b) ->
    length (filter (rejected df) idx) <= length (ERROR_MESSAGES w) ->
    report df (map (fun p => (p, negb (rejected df p))) idx) w
    = (Return tt,
       mkWorld
         (skipn (length (filter (rejected df) idx)) (ERROR_MESSAGES w))
         (stdout w
          ++ flat_map (block df)
               (combine (filter (rejected df) idx) (ERROR_MESSAGES w)))
         (provenance_files w) (remote_calls w)).
Proof.
  induction idx as [|p idx IH]; intros w Hret Hlen.
  - cbn. rewrite app_nil_r. now destruct w.
  - cbn [map report filter] in *.
    destruct (Hret p (or_introl eq_refl)) as [b Hb].
    assert (Hret' : forall q, In q idx ->
                      exists b, fst (cell_check df q) = Return b)
      by (intros; apply Hret; now right).
    destruct (rejected df p) eqn:Hr; cbn [negb].
    + destruct w as [queue out prov calls]. cbn [ERROR_MESSAGES] in *.
      destruct queue as [|m queue]; [cbn in Hlen; lia|].
      cbn [length] in Hlen.
      unfold bind at 1, report_cell. cbn [negb].
      unfold bind at 1 2 3 4, print at 1 2, lift, pop_error.
      rewrite (cell_check_Return_value df p b Hb).
      unfold print, set_stdout, set_errors.
      cbn [ERROR_MESSAGES stdout provenance_files remote_calls].
      rewrite IH; [|exact Hret'|cbn [ERROR_MESSAGES]; lia].
      cbn [ERROR_MESSAGES stdout provenance_files remote_calls
           length skipn combine flat_map].
      f_equal. f_equal. unfold block at 2. cbn [fst snd].
      rewrite <- !app_assoc. reflexivity.
    + unfold bind at 1, report_cell. cbn [negb ret].
      now apply IH.
Qed.

Lemma forallb_map_id {A} (f : A -> bool) (xs : list A) :
  forallb (fun b => b) (map f xs) = forallb f xs.
Proof. induction xs; cbn; congruence. Qed.

Lemma forallb_not_rejected df idx :
  forallb (fun p => negb (rejected df p)) idx = true ->
  filter (rejected df) idx = [].
Proof.
  induction idx as [|p idx IH]; cbn; [reflexivity|].
  intros H. apply andb_true_iff in H as [Hp Hrest].
  apply negb_true_iff in Hp. rewrite Hp. now apply IH.
Qed.

(** What [validate_on_unequal_cells] does, in full. *)
Lemma validate_on_unequal_cells_spec idx df w :
  match validate_on_unequal_cells idx df w with
  | (Return b, w') =>
      (forall p, In p idx -> exists b, fst (cell_check df p) = Return b)
      /\ b = forallb (fun p => negb (rejected df p)) idx
      /\ w' = if b then w
              else
                let cells := filter (rejected df) idx in
                let queue :=
                  ERROR_MESSAGES w ++ map (diagnostic_of df) cells in
                mkWorld
                  (skipn (length cells) queue)
                  (stdout w ++ msg_header
                     :: flat_map (block df) (combine cells queue))
                  (provenance_files w) (remote_calls w)
  | (Raise e, _) => exists p, In p idx /\ fst (cell_check df p) = Raise e
  end.
Proof.
  unfold validate_on_unequal_cells. unfold bind at 1.
  pose proof (collect_cell_checks df idx w) as Hc.
  destruct (collect idx _ w) as [[valid|e] w1]; [|exact Hc].
  destruct Hc as (Hret & -> & ->).
  rewrite forallb_map_id.
  destruct (forallb (fun p => negb (rejected df p)) idx) eqn:Hall.
  - cbn [ret]. repeat split; [exact Hret|].
    rewrite (forallb_not_rejected df idx Hall). cbn [map].
    apply set_errors_app_nil.
  - unfold bind at 1. unfold print at 1.
    unfold bind at 1.
    rewrite report_loop by now rewrite length_map.
    rewrite combine_map_r.
    rewrite report_spec;
      [|exact Hret
       |cbn [ERROR_MESSAGES set_stdout set_errors];
        rewrite length_app, length_map; lia].
    cbn [ret ERROR_MESSAGES stdout provenance_files remote_calls
         set_stdout set_errors].
    repeat split; [exact Hret|].
    f_equal. now rewrite <- app_assoc.
Qed.

Lemma flat_map_map {A B C} (f : B -> list C) (g : A -> B) (xs : list A) :
  flat_map f (map g xs) = flat_map (fun x => f (g x)) xs.
Proof. induction xs; cbn; congruence. Qed.

Lemma skipn_length_map {A B} (f : A -> B) (xs : list A) :
  skipn (length xs) (map f xs) = [].
Proof. apply skipn_all2. now rewrite length_map. Qed.

(** A rejected cell is one on which [change_checker] returns [False],
    and [diagnostic_of] is the message that call appends. *)
Lemma rejected_change_checker df p column w :
  rejected df p = true ->
  index (columns df) (snd p) = Return column ->
  change_checker (cell_value df p) column w
  = (Return false,
     set_errors (ERROR_MESSAGES w ++ [diagnostic_of df p]) w).
Proof.
  unfold rejected, diagnostic_of, cell_check, cell_value.
  intros Hr Hcol. rewrite Hcol in *.
  destruct (iloc df (fst p) (snd p)) as [v|e]; [|discriminate].
  rewrite change_checker_check.
  destruct (check_cases v column) as [H | [[m H] | [e H]]];
    rewrite H in *; cbn [fst snd hd] in *; try discriminate.
  reflexivity.
Qed.

(** C6.  (1) A call of [change_checker] that returns [True] leaves the
    queue as it was, and one that returns [False] appends exactly one
    message.  (2) When [validate_on_unequal_cells] returns [False] it
    has popped, off the front of the queue, one message for each cell
    that was rejected, taking the cells in the order of the coordinate
    list and printing each message under its cell.  (3) So, the queue
    being empty when validation starts, as it is in the program, the
    i-th diagnostic printed is the one the i-th invalid cell produced,
    and the queue is empty again afterwards.  (4) The message of a
    rejected cell is the one [change_checker] appends for it. *)
Theorem diagnostics_fifo :
  (forall v column w b w',
      change_checker v column w = (Return b, w') ->
      if b then w' = w
      else exists m, w' = set_errors (ERROR_MESSAGES w ++ [m]) w)
  /\ (forall idx df w w',
        validate_on_unequal_cells idx df w = (Return false, w') ->
        let cells := filter (rejected df) idx in
        let queue := ERROR_MESSAGES w ++ map (diagnostic_of df) cells in
        ERROR_MESSAGES w' = skipn (length cells) queue
        /\ stdout w'
           = stdout w ++ msg_header
               :: flat_map (block df) (combine cells queue))
  /\ (forall idx df w w',
        ERROR_MESSAGES w = [] ->
        validate_on_unequal_cells idx df w = (Return false, w') ->
        ERROR_MESSAGES w' = []
        /\ stdout w'
           = stdout w ++ msg_header
               :: flat_map (fun p => block df (p, diagnostic_of df p))
                    (filter (rejected df) idx))
  /\ (forall df p column w,
        rejected df p = true ->
        index (columns df) (snd p) = Return column ->
        change_checker (cell_value df p) column w
        = (Return false,
           set_errors (ERROR_MESSAGES w ++ [diagnostic_of df p]) w)).
Proof.
  assert (Hreport : forall idx df w w',
    validate_on_unequal_cells idx df w = (Return false, w') ->
    ERROR_MESSAGES w'
    = skipn (length (filter (rejected df) idx))
        (ERROR_MESSAGES w
         ++ map (diagnostic_of df) (filter (rejected df) idx))
    /\ stdout w'
       = stdout w ++ msg_header
           :: flat_map (block df)
                (combine (filter (rejected df) idx)
                   (ERROR_MESSAGES w
                    ++ map (diagnostic_of df)
                         (filter (rejected df) idx)))).
  { intros idx df w w' H.
    pose proof (validate_on_unequal_cells_spec idx df w) as Hs.
    rewrite H in Hs. destruct Hs as (_ & _ & ->). split; reflexivity. }
  split; [|split; [|split]].
  - intros v column w b w' H. rewrite change_checker_check in H.
    destruct (check_cases v column) as [Hc | [[m Hc] | [e Hc]]];
      rewrite Hc in H; cbn [fst snd] in H; inversion H; subst.
    + apply set_errors_app_nil.
    + now exists m.
  - intros idx df w w' H. exact (Hreport idx df w w' H).
  - intros idx df w w' Hq H.
    destruct (Hreport idx df w w' H) as [He Ho].
    rewrite Hq in He, Ho. cbn [app] in He, Ho. split.
    + rewrite He. apply skipn_length_map.
    + rewrite Ho, combine_map_r, flat_map_map. reflexivity.
  - intros df p column w. apply rejected_change_checker.
Qed.

Lemma rectangular_column df r c v :
  rectangular df -> iloc df r c = Return v ->
  exists column, index (columns df) c = Return column.
Proof.
  intros Hrect H. apply iloc_Return in H as (row & Hrow & Hc).
  unfold rectangular in Hrect. rewrite Forall_forall in Hrect.
  assert (Hlen : length row = length (columns df))
    by (apply Hrect; eapply nth_error_In; eauto).
  assert (Hlt : c < length (columns df))
    by (rewrite <- Hlen; apply nth_error_Some; congruence).
  unfold index. destruct (nth_error (columns df) c) eqn:E; [eauto|].
  apply nth_error_None in E. lia.
Qed.

(** On such a frame the check of an existing cell never raises. *)
Lemma csv_frame_cell_check df r c v :
  csv_frame df -> iloc df r c = Return v ->
  exists b, fst (cell_check df (r, c)) = Return b.
Proof.
  intros [Hrect Hcsv] H.
  destruct (rectangular_column df r c v Hrect H) as [column Hcol].
  unfold cell_check. cbn [fst snd]. rewrite H, Hcol.
  apply check_csv_scalar.
  apply iloc_Return in H as (row & Hrow & Hc).
  rewrite Forall_forall in Hcsv.
  specialize (Hcsv row (nth_error_In _ _ Hrow)).
  rewrite Forall_forall in Hcsv.
  exact (Hcsv v (nth_error_In _ _ Hc)).
Qed.

Lemma forallb_rejected_false df idx p :
  In p idx -> rejected df p = true ->
  forallb (fun q => negb (rejected df q)) idx = false.
Proof.
  intros Hin Hr. destruct (forallb _ idx) eqn:E; [|reflexivity].
  rewrite forallb_forall in E. specialize (E p Hin).
  rewrite Hr in E. discriminate.
Qed.

(** C5.  For two frames of one shape as read from CSV files, if
    [change_checker] rejects any of the cells that differ then [main]
    makes no call on the Flywheel client at all, whatever the other
    cells are, and prints, after the heading, one block for every
    rejected cell in coordinate order (its 1-indexed row and column with
    the offending value, then the reason) before [Exiting...]. *)
Theorem all_or_nothing (df_original df_modified : DataFrame)
    (fw : Client) :
  shape df_original = shape df_modified ->
  rectangular df_original ->
  csv_frame df_modified ->
  (exists p, In p (unequal_indices df_original df_modified)
             /\ rejected df_modified p = true) ->
  exists w',
    main df_original df_modified fw initial_world = (Return tt, w')
    /\ remote_calls w' = []
    /\ stdout w'
       = msg_header
         :: flat_map
              (fun p => block df_modified (p, diagnostic_of df_modified p))
              (filter (rejected df_modified)
                      (unequal_indices df_original df_modified))
         ++ ["Exiting..."].
Proof.
  intros Hs Hrect Hcsv (p & Hin & Hrej).
  destruct (get_unequal_cells_returns df_original df_modified true
              initial_world Hs Hrect) as [prov Hdiff].
  set (idx := unequal_indices df_original df_modified) in *.
  set (w1 := set_provenance prov initial_world) in *.
  pose proof (validate_on_unequal_cells_spec idx df_modified w1) as Hv.
  destruct (validate_on_unequal_cells idx df_modified w1)
    as [[b|e] w2] eqn:Hval.
  - destruct Hv as (_ & Hb & Hw2).
    rewrite (forallb_rejected_false df_modified idx p Hin Hrej) in Hb.
    subst b.
    eexists. split; [|split].
    + unfold main. unfold bind at 1. rewrite Hdiff.
      unfold bind at 1. rewrite Hval.
      unfold bind at 1, len_errors. rewrite andb_false_r.
      unfold print. reflexivity.
    + rewrite Hw2. reflexivity.
    + rewrite Hw2.
      cbn [stdout set_stdout w1 set_provenance initial_world
           ERROR_MESSAGES app].
      rewrite combine_map_r, flat_map_map. reflexivity.
  - destruct Hv as (q & Hq & He).
    destruct q as [r c]. subst idx.
    apply In_unequal_indices in Hq as (v1 & v2 & _ & H2 & _).
    destruct (csv_frame_cell_check df_modified r c v2 Hcsv H2) as [b Hb].
    congruence.
Qed.

(** The theorem on the rejection scenario, for a store that knows no
    acquisition at all. *)
Lemma all_or_nothing_witness :
  exists w',
    main id_edit_original id_edit_modified (fun _ => None) initial_world
    = (Return tt, w')
    /\ remote_calls w' = []
    /\ stdout w'
       = [ msg_header; EmptyString;
           ("Row 1, Column 1, " ++ dquote ++ "124" ++ dquote)%string;
           msg_acquisition_id; "Exiting..." ].
Proof.
  destruct (all_or_nothing id_edit_original id_edit_modified
              (fun _ => None)) as (w' & Hmain & Hcalls & Hout).
  - reflexivity.
  - unfold rectangular. cbn. repeat constructor.
  - split; [unfold rectangular|]; cbn; repeat constructor.
  - exists (0, 0). split; [now left|reflexivity].
  - exists w'. split; [exact Hmain|]. split; [exact Hcalls|].
    rewrite Hout. reflexivity.
Defined.

(** The third part of the theorem on the rejection scenario. *)
Lemma diagnostics_fifo_witness :
  ERROR_MESSAGES
    (snd (validate_on_unequal_cells [(0, 0)] id_edit_modified
            initial_world)) = []
  /\ stdout
       (snd (validate_on_unequal_cells [(0, 0)] id_edit_modified
               initial_world))
     = stdout initial_world ++ msg_header
         :: flat_map
              (fun p => block id_edit_modified
                          (p, diagnostic_of id_edit_modified p))
              (filter (rejected id_edit_modified) [(0, 0)]).
Proof.
  apply (proj1 (proj2 (proj2 diagnostics_fifo))
           [(0, 0)] id_edit_modified initial_world).
  - reflexivity.
  - reflexivity.
Defined.

(** ** The apply phase *)

Lemma str_split_cons sep s : exists h t, str_split sep s = h :: t.
Proof.
  destruct s as [|c s]; cbn; [eauto|].
  destruct (Ascii.eqb c sep); [eauto|].
  destruct (str_split sep s); eauto.
Qed.

Lemma create_nested_fw_dict_split sep s v :
  exists k d, create_nested_fw_dict (str_split sep s) v = Dict k d.
Proof.
  destruct (str_split_cons sep s) as (h & t & ->). cbn. eauto.
Qed.

(** The head of a filtered enumeration is the first element that
    passes. *)
Lemma filter_enumerate_first {A} (P : A -> bool) (xs : list A) :
  forall k i f rest,
    filter (fun e => P (snd e)) (enumerate_from k xs) = (i, f) :: rest ->
    k <= i /\ nth_error xs (i - k) = Some f /\ P f = true
    /\ forall j g, k <= j < i -> nth_error xs (j - k) = Some g ->
                   P g = false.
Proof.
  induction xs as [|x xs IH]; intros k i f rest; cbn [enumerate_from filter];
    [discriminate|].
  cbn [snd]. destruct (P x) eqn:Hx.
  - intros H. inversion H; subst.
    rewrite Nat.sub_diag. repeat split; auto. intros j g Hj. lia.
  - intros H. apply IH in H as (Hle & Hn & Hp & Hbefore).
    split; [lia|]. split.
    + replace (i - k) with (S (i - S k)) by lia. exact Hn.
    + split; [exact Hp|]. intros j g Hj Hg.
      destruct (Nat.eq_dec j k) as [->|Hne].
      * rewrite Nat.sub_diag in Hg. cbn in Hg. congruence.
      * apply (Hbefore j g); [lia|].
        replace (j - k) with (S (j - S k)) in Hg by lia. exact Hg.
Qed.

Lemma files_of_type_first fw_object file_type i f rest :
  files_of_type fw_object file_type = (i, f) :: rest ->
  nth_error (files fw_object) i = Some f
  /\ py_eq (f_type f) file_type = true
  /\ forall j g, j < i -> nth_error (files fw_object) j = Some g ->
                 py_eq (f_type g) file_type = false.
Proof.
  unfold files_of_type. intros H.
  apply (filter_enumerate_first (fun f => py_eq (f_type f) file_type))
    in H as (_ & Hn & Hp & Hbefore).
  rewrite Nat.sub_0_r in Hn. repeat split; auto.
  intros j g Hj Hg. apply (Hbefore j g); [lia|].
  now rewrite Nat.sub_0_r.
Qed.

(** What the loop body does once the row, the acquisition and the cell
    have been found: it takes the head of the matching files. *)
Lemma upload_cell_found modified_df client pair w acquisition file_type
    fw_object column value :
  loc modified_df (fst pair) "acquisition.id" = Return acquisition ->
  loc modified_df (fst pair) "type" = Return file_type ->
  client (py_str acquisition) = Some fw_object ->
  index (columns modified_df) (snd pair) = Return column ->
  iloc modified_df (fst pair) (snd pair) = Return value ->
  upload_cell modified_df client pair w
  = match files_of_type fw_object file_type with
    | [] =>
        (Raise IndexError,
         set_calls (remote_calls w ++ [Get (py_str acquisition)]) w)
    | f :: _ =>
        (Return tt,
         set_calls
           (remote_calls w
            ++ Get (py_str acquisition)
               :: dispatch (py_str acquisition) (fst f)
                    (create_nested_fw_dict (str_split underscore column)
                                           value)) w)
    end.
Proof.
  intros Hacq Htype Hget Hcol Hval.
  unfold upload_cell.
  rewrite Hacq, Htype, Hcol, Hval.
  unfold bind at 1 2 3, lift at 1 2, client_get, bind at 1, log_call at 1.
  rewrite Hget. unfold ret at 1. unfold bind at 1 2 3, lift.
  destruct (create_nested_fw_dict_split underscore column value)
    as (k & d & ->).
  unfold index. destruct (files_of_type fw_object file_type) as [|f fs];
    cbn [nth_error]; [reflexivity|].
  unfold dispatch, bind, log_call, ret.
  destruct (String.eqb k "info"), (String.eqb k "classification");
    cbn [app remote_calls set_calls ERROR_MESSAGES stdout
         provenance_files];
    unfold set_calls; cbn [remote_calls ERROR_MESSAGES stdout
                           provenance_files];
    rewrite <- ?app_assoc; reflexivity.
Qed.

(** C4, as the code has it.  Once the row's acquisition and the cell
    have been found, the sub-object used is the first file of the
    acquisition whose type equals the row's [type] column.  If no file
    matches, the cell raises [IndexError] before any update call, and
    the exception ends the whole loop of [upload_to_flywheel].  If one
    or more match, no error is raised: the update calls of the cell go
    to the first match, which no file before it equals in type. *)
Theorem upload_addresses_first_match (modified_df : DataFrame)
    (client : Client) (pair : nat * nat) (w : world)
    (acquisition file_type : pyval) (fw_object : Acquisition)
    (column : string) (value : pyval) :
  loc modified_df (fst pair) "acquisition.id" = Return acquisition ->
  loc modified_df (fst pair) "type" = Return file_type ->
  client (py_str acquisition) = Some fw_object ->
  index (columns modified_df) (snd pair) = Return column ->
  iloc modified_df (fst pair) (snd pair) = Return value ->
  match files_of_type fw_object file_type with
  | [] =>
      upload_cell modified_df client pair w
      = (Raise IndexError,
         set_calls (remote_calls w ++ [Get (py_str acquisition)]) w)
      /\ forall rest,
           upload_to_flywheel modified_df (pair :: rest) client w
           = (Raise IndexError,
              set_calls (remote_calls w ++ [Get (py_str acquisition)]) w)
  | (i, f) :: _ =>
      nth_error (files fw_object) i = Some f
      /\ py_eq (f_type f) file_type = true
      /\ (forall j g, j < i -> nth_error (files fw_object) j = Some g ->
                      py_eq (f_type g) file_type = false)
      /\ upload_cell modified_df client pair w
         = (Return tt,
            set_calls
              (remote_calls w
               ++ Get (py_str acquisition)
                  :: dispatch (py_str acquisition) i
                       (create_nested_fw_dict
                          (str_split underscore column) value)) w)
  end.
Proof.
  intros Hacq Htype Hget Hcol Hval.
  pose proof (upload_cell_found modified_df client pair w acquisition
                file_type fw_object column value
                Hacq Htype Hget Hcol Hval) as Hcell.
  destruct (files_of_type fw_object file_type) as [|[i f] fs] eqn:Hfiles.
  - split; [exact Hcell|].
    intros rest. unfold upload_to_flywheel. cbn [for_each].
    unfold bind. now rewrite Hcell.
  - destruct (files_of_type_first _ _ _ _ _ Hfiles) as (Hn & Hp & Hb).
    repeat split; auto.
Qed.

(** The theorem where the second file is the only nifti one. *)
Lemma upload_addresses_first_match_witness :
  upload_cell info_edit_modified single_edit_store (0, 2) initial_world
  = (Return tt,
     set_calls
       [ Get "123";
         UpdateInfo "123" 1 (Dict "BIDS" (Dict "Task" (Leaf (PyStr "rest"))))
       ] initial_world).
Proof.
  exact (proj2 (proj2 (proj2
           (upload_addresses_first_match info_edit_modified
              single_edit_store (0, 2) initial_world
              (PyInt 123) (PyStr "nifti") acquisition_123
              "info_BIDS_Task" (PyStr "rest")
              eq_refl eq_refl eq_refl eq_refl eq_refl)))).
Defined.

(** C4 as stated fails: two files of the acquisition have the row's
    type, yet the apply phase raises nothing and updates the first. *)
Lemma ambiguous_type_updates_first :
  length (files_of_type
            (mkAcquisition [mkFile (PyStr "nifti"); mkFile (PyStr "nifti")])
            (PyStr "nifti")) = 2
  /\ upload_to_flywheel info_edit_modified [(0, 2)] two_nifti_store
       initial_world
     = (Return tt,
        set_calls
          [ Get "123";
            UpdateInfo "123" 0
              (Dict "BIDS" (Dict "Task" (Leaf (PyStr "rest")))) ]
          initial_world).
Proof. split; reflexivity. Qed.

(** C1, where the code departs from it.  On the single-edit scenario
    the diff finds the one changed cell, row 0 column 2, the check
    accepts it, and the run announces the upload and prints [Done!];
    yet its only call on the store is the [get] of acquisition 123.
    The update carrying [{modality: "CT"}] that the claim has, and that
    the docstring of [upload_to_flywheel] promises for a valid change,
    is never made, for this store or any other. *)
Theorem single_edit_is_validated_and_dropped :
  main csv_single_edit_original csv_single_edit_modified
       single_edit_store initial_world
  = (Return tt,
     mkWorld []
       ["Changes appear to be valid! Uploading..."; "Done!"]
       [[(PyStr "MR", PyStr "CT", 0, "modality")]]
       [Get "123"])
  /\ unequal_indices csv_single_edit_original csv_single_edit_modified
     = [(0, 2)]
  /\ cell_check csv_single_edit_modified (0, 2) = (Return true, [])
  /\ files_of_type acquisition_123 (PyStr "nifti")
     = [(1, mkFile (PyStr "nifti"))]
  /\ create_nested_fw_dict (str_split underscore "modality") (PyStr "CT")
     = Dict "modality" (Leaf (PyStr "CT"))
  /\ forall fw : Client,
       update_calls
         (remote_calls
            (snd (main csv_single_edit_original csv_single_edit_modified
                    fw initial_world))) = [].
Proof.
  repeat (split; [reflexivity|]).
  intros fw.
  assert (Hdiff : get_unequal_cells csv_single_edit_original
                    csv_single_edit_modified true initial_world
                  = (Return [(0, 2)],
                     set_provenance
                       [[(PyStr "MR", PyStr "CT", 0, "modality")]]
                       initial_world)) by reflexivity.
  unfold main. unfold bind at 1. rewrite Hdiff.
  unfold bind at 1.
  assert (Hval : forall w,
            validate_on_unequal_cells [(0, 2)] csv_single_edit_modified w
            = (Return true, w)).
  { intros w. destruct w. reflexivity. }
  rewrite Hval. unfold bind at 1, len_errors.
  cbn [ERROR_MESSAGES set_provenance initial_world length Nat.eqb andb].
  unfold bind at 1, print at 1. unfold bind at 1.
  unfold upload_to_flywheel. cbn [for_each].
  unfold bind at 1.
  assert (Hcell : forall w,
            update_calls (remote_calls w) = [] ->
            match upload_cell csv_single_edit_modified fw (0, 2) w with
            | (_, w') => update_calls (remote_calls w') = []
                         /\ stdout w' = stdout w
            end).
  { intros w Hw. unfold upload_cell.
    unfold bind at 1. cbn [fst snd]. unfold lift at 1.
    replace (loc csv_single_edit_modified 0 "acquisition.id")
      with (Return (PyInt 123)) by reflexivity.
    unfold bind at 1, lift at 1.
    replace (loc csv_single_edit_modified 0 "type")
      with (Return (PyStr "nifti")) by reflexivity.
    unfold bind at 1, client_get, bind at 1, log_call at 1.
    assert (Hget : update_calls
                     (remote_calls w ++ [Get (py_str (PyInt 123))]) = []).
    { unfold update_calls in *. rewrite filter_app, Hw. reflexivity. }
    destruct (fw (py_str (PyInt 123))) as [a|];
      [|cbn; now split].
    unfold ret at 1. unfold bind at 1, lift at 1.
    replace (index (columns csv_single_edit_modified) 2)
      with (Return "modality") by reflexivity.
    unfold bind at 1, lift at 1.
    replace (iloc csv_single_edit_modified 0 2)
      with (Return (PyStr "CT")) by reflexivity.
    unfold bind at 1, lift at 1.
    destruct (index (files_of_type a (PyStr "nifti")) 0) as [f|e];
      [|cbn; now split].
    cbn. now split. }
  match goal with
  | |- context [upload_cell csv_single_edit_modified fw (0, 2) ?w] =>
      specialize (Hcell w eq_refl);
      destruct (upload_cell csv_single_edit_modified fw (0, 2) w)
        as [[[]|e] w']
  end; destruct Hcell as [Hu _]; cbn; exact Hu.
Qed.

(** ** More on the diff *)

Lemma get_unequal_cells_same_shape df1 df2 prov w :
  shape df1 = shape df2 ->
  get_unequal_cells df1 df2 prov w
  = ((if prov then
        lst <- collect (unequal_indices df1 df2) (fun pair =>
                 original <- lift (iloc df1 (fst pair) (snd pair)) ;;
                 modified <- lift (iloc df2 (fst pair) (snd pair)) ;;
                 column <- lift (index (columns df1) (snd pair)) ;;
                 ret (original, modified, fst pair, column)) ;;
        write_provenance lst
      else ret tt) ;;
     ret (unequal_indices df1 df2)) w.
Proof.
  intros Hs. unfold get_unequal_cells.
  apply shape_eqb in Hs. now rewrite Hs.
Qed.

Lemma py_eq_fillna0_refl (v : pyval) : py_eq (fillna0 v) (fillna0 v) = true.
Proof.
  destruct v as [s|z|b|[|s|q t]|]; unfold fillna0; cbn [isna];
    cbn [py_eq as_number number_eqb].
  - apply String.eqb_refl.
  - apply Qeq_bool_iff. reflexivity.
  - apply Qeq_bool_iff. reflexivity.
  - reflexivity.
  - now destruct s.
  - apply Qeq_bool_iff. reflexivity.
  - reflexivity.
Qed.

Lemma unequal_indices_self (df : DataFrame) : unequal_indices df df = [].
Proof.
  destruct (unequal_indices df df) as [|[r c] rest] eqn:E; [reflexivity|].
  assert (Hin : In (r, c) (unequal_indices df df))
    by (rewrite E; now left).
  apply In_unequal_indices in Hin as (v1 & v2 & H1 & H2 & Hne).
  rewrite H1 in H2. inversion H2; subst.
  rewrite py_eq_fillna0_refl in Hne. discriminate.
Qed.

(** X1.  Comparing a frame with itself gives no coordinate, whatever it
    holds (missing cells included); with [provenance] set, a log with no
    line is still written. *)
Theorem diff_of_a_frame_with_itself (df : DataFrame) (prov : bool)
    (w : world) :
  get_unequal_cells df df prov w
  = (Return [],
     if prov then set_provenance (provenance_files w ++ [[]]) w else w).
Proof.
  rewrite get_unequal_cells_same_shape by reflexivity.
  rewrite unequal_indices_self. now destruct prov.
Qed.

Lemma map2_sym {A B} (f : A -> A -> B) (xs ys : list A) :
  (forall x y, f x y = f y x) -> map2 f xs ys = map2 f ys xs.
Proof.
  intros Hf. revert ys. induction xs as [|x xs IH]; intros [|y ys]; cbn;
    try reflexivity.
  now rewrite Hf, IH.
Qed.

(** X2.  Without the provenance log the diff does not depend on which
    frame is called the original: both orders raise alike or return the
    same coordinates. *)
Theorem diff_is_symmetric (df1 df2 : DataFrame) (w : world) :
  get_unequal_cells df1 df2 false w = get_unequal_cells df2 df1 false w.
Proof.
  unfold get_unequal_cells.
  rewrite (Nat.eqb_sym (fst (shape df1))), (Nat.eqb_sym (snd (shape df1))).
  destruct (negb _); [reflexivity|].
  unfold array_eq.
  rewrite (map2_sym (map2 py_eq) (fillna0_values df1) (fillna0_values df2)).
  - reflexivity.
  - intros x y. apply map2_sym. apply py_eq_sym.
Qed.

Lemma StronglySorted_app {A} (R : A -> A -> Prop) (l1 l2 : list A) :
  StronglySorted R l1 -> StronglySorted R l2 ->
  (forall x y, In x l1 -> In y l2 -> R x y) ->
  StronglySorted R (l1 ++ l2).
Proof.
  induction l1 as [|a l1 IH]; intros H1 H2 H12; cbn; [exact H2|].
  inversion H1; subst. constructor.
  - apply IH; auto. intros x y Hx Hy. apply H12; [now right|exact Hy].
  - apply Forall_app. split; [assumption|].
    apply Forall_forall. intros y Hy. apply H12; [now left|exact Hy].
Qed.

Lemma where_row_sorted r bs : forall c,
  StronglySorted lex_lt (where_row r c bs).
Proof.
  induction bs as [|b bs IH]; intros c; cbn; [constructor|].
  apply StronglySorted_app; [| apply IH |].
  - destruct b; repeat constructor.
  - intros x [r' c'] Hx Hy. destruct b; [|contradiction].
    destruct Hx as [<-|[]].
    apply In_where_row in Hy as (-> & Hle & _).
    right. cbn. lia.
Qed.

Lemma where_from_sorted a : forall r,
  StronglySorted lex_lt (where_from r a).
Proof.
  induction a as [|row a IH]; intros r; cbn; [constructor|].
  apply StronglySorted_app; [apply where_row_sorted | apply IH |].
  intros [r1 c1] [r2 c2] H1 H2.
  apply In_where_row in H1 as (-> & _ & _).
  apply In_where_from in H2 as (Hle & _).
  left. cbn. lia.
Qed.

Lemma unequal_indices_sorted df1 df2 :
  StronglySorted lex_lt (unequal_indices df1 df2).
Proof. apply where_from_sorted. Qed.

Lemma lex_lt_irrefl p : ~ lex_lt p p.
Proof. unfold lex_lt. lia. Qed.

Lemma StronglySorted_NoDup {A} (R : A -> A -> Prop) (l : list A) :
  (forall x, ~ R x x) -> StronglySorted R l -> NoDup l.
Proof.
  intros Hirr. induction 1 as [|a l Hs IH Hall]; constructor; auto.
  intros Hin. rewrite Forall_forall in Hall.
  exact (Hirr a (Hall a Hin)).
Qed.

(** X3.  The coordinates come in row-major order, each one once, and
    each lies inside the frame. *)
Theorem diff_is_row_major_and_in_bounds (df1 df2 : DataFrame)
    (prov : bool) (w w' : world) (idx : list (nat * nat)) :
  rectangular df1 ->
  get_unequal_cells df1 df2 prov w = (Return idx, w') ->
  StronglySorted lex_lt idx
  /\ NoDup idx
  /\ forall r c, In (r, c) idx ->
       r < fst (shape df1) /\ c < snd (shape df1).
Proof.
  intros Hrect H.
  apply get_unequal_cells_Return in H as (_ & -> & _).
  split; [apply unequal_indices_sorted|]. split.
  - eapply StronglySorted_NoDup;
      [exact lex_lt_irrefl | apply unequal_indices_sorted].
  - intros r c Hin.
    apply In_unequal_indices in Hin as (v1 & v2 & H1 & _ & _).
    destruct (rectangular_column df1 r c v1 Hrect H1) as [column Hcol].
    apply iloc_Return in H1 as (row & Hrow & _).
    unfold shape. cbn [fst snd]. split.
    + apply nth_error_Some. congruence.
    + unfold index in Hcol.
      destruct (nth_error (columns df1) c) eqn:E; [|discriminate].
      apply nth_error_Some. congruence.
Qed.

(** The theorem on the frames of the single-edit scenario. *)
Lemma diff_is_row_major_and_in_bounds_witness :
  StronglySorted lex_lt [(0, 2)]
  /\ NoDup [(0, 2)]
  /\ forall r c, In (r, c) [(0, 2)] ->
       r < fst (shape single_edit_original)
       /\ c < snd (shape single_edit_original).
Proof.
  apply (diff_is_row_major_and_in_bounds single_edit_original
           single_edit_modified true initial_world
           (set_provenance [[(PyStr "MR", PyStr "CT", 0, "modality")]]
                           initial_world)).
  - unfold rectangular. cbn. repeat constructor.
  - reflexivity.
Defined.

Lemma NoDup_singleton {A} (l : list A) (a : A) :
  NoDup l -> (forall x, In x l <-> x = a) -> l = [a].
Proof.
  intros Hnd Hin. destruct l as [|x l].
  - exfalso. exact (proj2 (Hin a) eq_refl).
  - assert (x = a) by (apply Hin; now left). subst x.
    destruct l as [|y l]; [reflexivity|].
    assert (y = a) by (apply Hin; right; now left). subst y.
    inversion Hnd as [|? ? Hnot _]; subst. exfalso. apply Hnot. now left.
Qed.

(** X4.  Take two frames of one shape whose integer cells are all ones
    a float64 holds exactly (at most [2^53] in magnitude), so that it
    does not matter whether pandas compares them cell by cell or as
    float64 arrays.  If they disagree, once missing values are read as
    0, in the cell at row [r], column [c] and agree in every other
    cell, the diff returns exactly [[(r, c)]]. *)
Theorem diff_of_a_single_difference (df1 df2 : DataFrame) (prov : bool)
    (w : world) (r c : nat) (v1 v2 : pyval) :
  shape df1 = shape df2 -> rectangular df1 ->
  float64_exact_frame df1 -> float64_exact_frame df2 ->
  iloc df1 r c = Return v1 -> iloc df2 r c = Return v2 ->
  py_eq (fillna0 v1) (fillna0 v2) = false ->
  (forall r' c' u1 u2,
      (r', c') <> (r, c) ->
      iloc df1 r' c' = Return u1 -> iloc df2 r' c' = Return u2 ->
      py_eq (fillna0 u1) (fillna0 u2) = true) ->
  exists w', get_unequal_cells df1 df2 prov w = (Return [(r, c)], w').
Proof.
  intros Hs Hrect _ _ H1 H2 Hne Hothers.
  destruct (get_unequal_cells_returns df1 df2 prov w Hs Hrect) as [p Hp].
  exists (set_provenance p w). rewrite Hp. f_equal. f_equal.
  apply NoDup_singleton.
  - eapply StronglySorted_NoDup;
      [exact lex_lt_irrefl | apply unequal_indices_sorted].
  - intros [r' c']. rewrite In_unequal_indices. split.
    + intros (u1 & u2 & Hu1 & Hu2 & Hu).
      destruct (Nat.eq_dec r' r) as [->|Hr];
        [destruct (Nat.eq_dec c' c) as [->|Hc]; [reflexivity|]|].
      * rewrite (Hothers r c' u1 u2) in Hu; [discriminate| |auto|auto].
        intros E. inversion E. contradiction.
      * rewrite (Hothers r' c' u1 u2) in Hu; [discriminate| |auto|auto].
        intros E. inversion E. contradiction.
    + intros E. inversion E; subst. eauto.
Qed.

(** The theorem on the single-edit scenario as loaded from CSV. *)
Lemma diff_of_a_single_difference_witness :
  exists w',
    get_unequal_cells csv_single_edit_original csv_single_edit_modified
      true initial_world = (Return [(0, 2)], w').
Proof.
  apply (diff_of_a_single_difference csv_single_edit_original
           csv_single_edit_modified true initial_world 0 2
           (PyStr "MR") (PyStr "CT")).
  - reflexivity.
  - unfold rectangular. cbn. repeat constructor.
  - unfold float64_exact_frame. cbn. repeat constructor.
  - unfold float64_exact_frame. cbn. repeat constructor.
  - reflexivity.
  - reflexivity.
  - reflexivity.
  - intros r' c' u1 u2 Hne Hu1 Hu2.
    destruct r' as [|r'].
    + destruct c' as [|[|[|[|[|c']]]]].
      * inversion Hu1; inversion Hu2; subst. reflexivity.
      * inversion Hu1; inversion Hu2; subst. reflexivity.
      * now contradiction Hne.
      * inversion Hu1; inversion Hu2; subst. reflexivity.
      * inversion Hu1; inversion Hu2; subst. reflexivity.
      * unfold iloc, index in Hu1. cbn in Hu1.
        destruct c'; discriminate Hu1.
    + unfold iloc in Hu1. cbn in Hu1. destruct r'; discriminate Hu1.
Defined.

Lemma collect_stateless_results {A B} (f : A -> M B) (g : A -> result B)
    xs :
  (forall x w, f x w = (g x, w)) ->
  forall w ys w',
    collect xs f w = (Return ys, w') ->
    Forall2 (fun x y => g x = Return y) xs ys.
Proof.
  intros Hf. induction xs as [|x xs IH]; intros w ys w' H.
  - cbn in H. inversion H. constructor.
  - cbn [collect] in H. unfold bind at 1 in H. rewrite Hf in H.
    destruct (g x) as [y|e] eqn:Hg; [|discriminate].
    unfold bind at 1 in H.
    destruct (collect xs f w) as [[zs|e] w1] eqn:Hc; [|discriminate].
    cbn in H. inversion H; subst.
    constructor; [exact Hg | eapply IH; eauto].
Qed.

(** X5.  With [provenance] set, a diff that returns has appended one
    log to the provenance files, holding for each coordinate returned,
    in the same order, the original cell, the modified cell, the row
    and the column name; nothing else of the state has changed. *)
Theorem provenance_log_follows_the_diff (df1 df2 : DataFrame)
    (w w' : world) (idx : list (nat * nat)) :
  get_unequal_cells df1 df2 true w = (Return idx, w') ->
  exists rows,
    w' = set_provenance (provenance_files w ++ [rows]) w
    /\ Forall2
         (fun p row =>
            iloc df1 (fst p) (snd p) = Return (fst (fst (fst row)))
            /\ iloc df2 (fst p) (snd p) = Return (snd (fst (fst row)))
            /\ snd (fst row) = fst p
            /\ index (columns df1) (snd p) = Return (snd row))
         idx rows.
Proof.
  intros H.
  pose proof (get_unequal_cells_Return _ _ _ _ _ _ H) as (Hs & -> & _).
  rewrite get_unequal_cells_same_shape in H by exact Hs.
  unfold bind at 1 2 in H.
  match type of H with
  | context [collect ?xs ?f w] =>
      pose proof (collect_stateless f (prov_row_of df1 df2) xs
                    (prov_row_of_bind df1 df2) w) as Hw;
      pose proof (collect_stateless_results f (prov_row_of df1 df2) xs
                    (prov_row_of_bind df1 df2) w) as Hrows;
      destruct (collect xs f w) as [[rows|e] w1]
  end; [|discriminate].
  cbn [snd] in Hw. subst w1.
  specialize (Hrows rows w eq_refl).
  cbn in H. inversion H; subst.
  exists rows. split; [reflexivity|].
  eapply Forall2_impl; [|exact Hrows].
  intros [r c] [[[o m] row] col] Hp. cbn [fst snd].
  unfold prov_row_of in Hp. cbn [fst snd] in Hp.
  destruct (iloc df1 r c) as [o'|]; [|discriminate].
  destruct (iloc df2 r c) as [m'|]; [|discriminate].
  destruct (index (columns df1) c) as [col'|]; [|discriminate].
  inversion Hp; subst. auto.
Qed.

(** The theorem on the single-edit scenario. *)
Lemma provenance_log_follows_the_diff_witness :
  exists rows,
    set_provenance [[(PyStr "MR", PyStr "CT", 0, "modality")]]
                   initial_world
    = set_provenance (provenance_files initial_world ++ [rows])
                     initial_world
    /\ Forall2
         (fun p row =>
            iloc single_edit_original (fst p) (snd p)
            = Return (fst (fst (fst row)))
            /\ iloc single_edit_modified (fst p) (snd p)
               = Return (snd (fst (fst row)))
            /\ snd (fst row) = fst p
            /\ index (columns single_edit_original) (snd p)
               = Return (snd row))
         [(0, 2)] rows.
Proof.
  apply (provenance_log_follows_the_diff single_edit_original
           single_edit_modified initial_world).
  reflexivity.
Defined.

(** X6.  A cell that is missing in both frames, be it NaN in one and
    [None] in the other, is never reported. *)
Theorem missing_equals_missing (df1 df2 : DataFrame) (prov : bool)
    (w w' : world) (idx : list (nat * nat)) (r c : nat) (v1 v2 : pyval) :
  get_unequal_cells df1 df2 prov w = (Return idx, w') ->
  iloc df1 r c = Return v1 -> iloc df2 r c = Return v2 ->
  isna v1 = true -> isna v2 = true ->
  ~ In (r, c) idx.
Proof.
  intros H H1 H2 Hn1 Hn2 Hin.
  apply get_unequal_cells_Return in H as (_ & -> & _).
  apply In_unequal_indices in Hin as (u1 & u2 & Hu1 & Hu2 & Hne).
  rewrite H1 in Hu1. rewrite H2 in Hu2. inversion Hu1; inversion Hu2; subst.
  unfold fillna0 in Hne. rewrite Hn1, Hn2 in Hne. discriminate.
Qed.

(** The theorem on a cell that is NaN on one side, [None] on the
    other. *)
Lemma missing_equals_missing_witness :
  ~ In (0, 1)
       (unequal_indices
          (mkDataFrame ["acquisition.id"; "run"]
                       [[PyInt 123; PyFloat Fnan]])
          (mkDataFrame ["acquisition.id"; "run"] [[PyInt 123; PyNone]])).
Proof.
  apply (missing_equals_missing
           (mkDataFrame ["acquisition.id"; "run"]
                        [[PyInt 123; PyFloat Fnan]])
           (mkDataFrame ["acquisition.id"; "run"] [[PyInt 123; PyNone]])
           false initial_world initial_world _ 0 1
           (PyFloat Fnan) PyNone); reflexivity.
Defined.

(** ** More on the field rules *)

Lemma lower_char_idempotent (c : ascii) :
  lower_char (lower_char c) = lower_char c.
Proof. destruct c as [[] [] [] [] [] [] [] []]; reflexivity. Qed.

Lemma lower_idempotent (s : string) : lower (lower s) = lower s.
Proof.
  induction s as [|c s IH]; cbn; [reflexivity|].
  now rewrite lower_char_idempotent, IH.
Qed.

(** X7.  Except for the acquisition id, the rule applied to a column
    does not depend on the case of its name: a column and its
    lower-case spelling are checked alike. *)
Theorem column_name_case_is_ignored (v : pyval) (column : string)
    (w : world) :
  lower column <> "acquisition.id" ->
  change_checker v column w = change_checker v (lower column) w.
Proof.
  intros Hne. unfold change_checker. rewrite lower_idempotent.
  destruct (str_in (lower column) (keys drop_down_bool)); [reflexivity|].
  destruct (str_in (lower column) (keys drop_down_single_fields));
    [reflexivity|].
  destruct (str_in (lower column) string_fields); [reflexivity|].
  destruct (String.eqb (lower column) "filename"); [reflexivity|].
  destruct (String.eqb column "acquisition.id") eqn:E1.
  - apply String.eqb_eq in E1. subst column. now contradiction Hne.
  - destruct (String.eqb (lower column) "acquisition.id") eqn:E2;
      [|reflexivity].
    apply String.eqb_eq in E2. contradiction.
Qed.

(** The theorem on the column [Modality]. *)
Lemma column_name_case_is_ignored_witness :
  change_checker (PyStr "xyz") "Modality" initial_world
  = change_checker (PyStr "xyz") (lower "Modality") initial_world.
Proof.
  apply column_name_case_is_ignored. cbn. discriminate.
Defined.

(** X8.  The acquisition id is protected under its exact name only: a
    column that spells [acquisition.id] with any capital letter is
    accepted, whatever the value, and nothing is queued. *)
Theorem capitalised_acquisition_id_is_accepted (v : pyval)
    (column : string) (w : world) :
  lower column = "acquisition.id" -> column <> "acquisition.id" ->
  change_checker v column w = (Return true, w).
Proof.
  intros Hl Hne. unfold change_checker. rewrite Hl.
  cbn [str_in keys map fst drop_down_bool drop_down_single_fields
       string_fields existsb].
  replace (str_in "acquisition.id" (keys drop_down_bool))
    with false by reflexivity.
  replace (str_in "acquisition.id" (keys drop_down_single_fields))
    with false by reflexivity.
  replace (str_in "acquisition.id" string_fields)
    with false by reflexivity.
  replace (String.eqb "acquisition.id" "filename")
    with false by reflexivity.
  destruct (String.eqb column "acquisition.id") eqn:E; [|reflexivity].
  apply String.eqb_eq in E. contradiction.
Qed.

(** The theorem on the column [Acquisition.ID]. *)
Lemma capitalised_acquisition_id_is_accepted_witness :
  change_checker (PyInt 999) "Acquisition.ID" initial_world
  = (Return true, initial_world).
Proof.
  apply capitalised_acquisition_id_is_accepted.
  - reflexivity.
  - discriminate.
Defined.

Lemma strip_prefix_None (p s : string) :
  String.prefix p s = false -> Re.strip_prefix p s = None.
Proof.
  revert s. induction p as [|a p IH]; intros [|b s]; cbn;
    try discriminate; try reflexivity.
  destruct (Ascii.ascii_dec a b) as [->|Hne].
  - rewrite Ascii.eqb_refl. apply IH.
  - intros _. destruct (Ascii.eqb a b) eqn:E; [|reflexivity].
    apply Ascii.eqb_eq in E. contradiction.
Qed.

Lemma filename_column (column : string) :
  lower column = "filename" ->
  str_in (lower column) (keys drop_down_bool) = false
  /\ str_in (lower column) (keys drop_down_single_fields) = false
  /\ str_in (lower column) string_fields = false
  /\ String.eqb (lower column) "filename" = true.
Proof. intros ->. repeat split. Qed.

(** X9.  In the [filename] column a value whose text does not begin
    with [sub-] is rejected with the BIDS message: none of the three
    grammars can match it. *)
Theorem filename_must_start_with_sub (v : pyval) (column : string)
    (w : world) :
  lower column = "filename" ->
  String.prefix "sub-" (py_str v) = false ->
  change_checker v column w
  = (Return false, set_errors (ERROR_MESSAGES w ++ [msg_bids]) w).
Proof.
  intros Hcol Hpre.
  destruct (filename_column column Hcol) as (H1 & H2 & H3 & H4).
  unfold change_checker. rewrite H1, H2, H3, H4.
  apply strip_prefix_None in Hpre.
  assert (Ha1 : Re.re_match Re.anat1 (py_str v) = false).
  { unfold Re.re_match, Re.anat1. cbn [Re.rmatch]. rewrite Hpre.
    reflexivity. }
  assert (Ha2 : Re.re_match Re.anat2 (py_str v) = false).
  { unfold Re.re_match, Re.anat2. cbn [Re.rmatch]. rewrite Hpre.
    reflexivity. }
  assert (Hf1 : Re.re_match Re.func1 (py_str v) = false).
  { unfold Re.re_match, Re.func1. cbn [Re.rmatch]. rewrite Hpre.
    reflexivity. }
  rewrite Ha1, Ha2, Hf1. reflexivity.
Qed.

(** The theorem on the number 12 in the column [Filename]. *)
Lemma filename_must_start_with_sub_witness :
  change_checker (PyInt 12) "Filename" initial_world
  = (Return false, set_errors [msg_bids] initial_world).
Proof.
  apply (filename_must_start_with_sub (PyInt 12) "Filename"
           initial_world); reflexivity.
Defined.

Lemma alnum_plus_run (x rest : string) (k : nat -> string -> bool) :
  forall pos,
    x <> EmptyString -> all_alnum x = true ->
    k (pos + String.length x) rest = true ->
    Re.alnum_plus pos (x ++ rest) k = true.
Proof.
  induction x as [|c x IH]; intros pos Hne Hall Hk; [contradiction|].
  cbn [all_alnum] in Hall. apply andb_true_iff in Hall as [Hc Hx].
  cbn [String.append Re.alnum_plus]. rewrite Hc. cbn [andb].
  destruct x as [|d x].
  - cbn [String.append String.length] in *.
    rewrite Nat.add_1_r in Hk. rewrite Hk. apply orb_true_r.
  - rewrite IH; [reflexivity|discriminate|exact Hx|].
    cbn [String.length] in *. now rewrite Nat.add_succ_r in Hk.
Qed.

Lemma anat1_minimal (x ext : string) :
  x <> EmptyString -> all_alnum x = true ->
  (forall pos,
     Re.rmatch (Re.Cat Re.nii_suffix Re.Eol) pos ext (fun _ _ => true)
     = true) ->
  Re.re_match Re.anat1 ("sub-" ++ x ++ ext) = true.
Proof.
  intros Hne Hall Hext.
  unfold Re.re_match, Re.anat1.
  cbn [Re.rmatch Re.strip_prefix String.append Nat.eqb andb Ascii.eqb
       Bool.eqb].
  apply alnum_plus_run; [exact Hne|exact Hall|].
  unfold Re.tagged. cbn [Re.rmatch].
  repeat match goal with
         | |- context [Re.strip_prefix ?p ext] =>
             destruct (Re.strip_prefix p ext)
         | |- (_ || ?b)%bool = true => apply orb_true_iff; right
         | |- (false || ?b)%bool = true => cbn [orb]
         end.
  all: try apply Hext.
Qed.

(** X10.  In the [filename] column the shortest names are accepted:
    for every non-empty label [x] of letters and digits, [sub-x.nii]
    and [sub-x.nii.gz] pass, and so does [sub-x.nii] followed by a
    newline, which [$] lets through. *)
Theorem minimal_bids_names_are_accepted (x : string) (w : world) :
  x <> EmptyString -> all_alnum x = true ->
  change_checker (PyStr ("sub-" ++ x ++ ".nii")) "filename" w
  = (Return true, w)
  /\ change_checker (PyStr ("sub-" ++ x ++ ".nii.gz")) "filename" w
     = (Return true, w)
  /\ change_checker
       (PyStr ("sub-" ++ x ++ ".nii" ++ String newline EmptyString))
       "filename" w
     = (Return true, w).
Proof.
  intros Hne Hall.
  assert (Hcc : forall ext,
            Re.re_match Re.anat1 ("sub-" ++ x ++ ext) = true ->
            change_checker (PyStr ("sub-" ++ x ++ ext)) "filename" w
            = (Return true, w)).
  { intros ext H. unfold change_checker.
    replace (str_in (lower "filename") (keys drop_down_bool))
      with false by reflexivity.
    replace (str_in (lower "filename") (keys drop_down_single_fields))
      with false by reflexivity.
    replace (str_in (lower "filename") string_fields)
      with false by reflexivity.
    replace (String.eqb (lower "filename") "filename")
      with true by reflexivity.
    cbn [py_str]. now rewrite H. }
  split; [|split]; apply Hcc; apply anat1_minimal; auto;
    intros pos; reflexivity.
Qed.

(** The theorem on the label [01]. *)
Lemma minimal_bids_names_are_accepted_witness :
  change_checker (PyStr "sub-01.nii") "filename" initial_world
  = (Return true, initial_world)
  /\ change_checker (PyStr "sub-01.nii.gz") "filename" initial_world
     = (Return true, initial_world)
  /\ change_checker
       (PyStr ("sub-01.nii" ++ String newline EmptyString))
       "filename" initial_world
     = (Return true, initial_world).
Proof.
  apply (minimal_bids_names_are_accepted "01" initial_world).
  - discriminate.
  - reflexivity.
Defined.

(** X11.  In a free-string column a value that is not a real number
    makes [change_checker] raise instead of returning [False]: [None]
    raises [TypeError], and an integer too large for a float raises
    [OverflowError]; in both cases no message is queued. *)
Theorem string_rule_raises_on_non_numbers (column : string) (w : world) :
  str_in (lower column) string_fields = true ->
  change_checker PyNone column w = (Raise TypeError, w)
  /\ forall z, (float_overflow_bound <= Z.abs z)%Z ->
       change_checker (PyInt z) column w = (Raise OverflowError, w).
Proof.
  intros Hcol.
  destruct (string_field_not_drop_down _ Hcol) as [H1 H2].
  unfold change_checker. rewrite H1, H2, Hcol. split; [reflexivity|].
  intros z Hz. unfold bind, lift, is_str, math_isnan.
  apply Z.ltb_ge in Hz. now rewrite Hz.
Qed.

(** The theorem on the column [folder]. *)
Lemma string_rule_raises_on_non_numbers_witness :
  change_checker PyNone "folder" initial_world
  = (Raise TypeError, initial_world)
  /\ forall z, (float_overflow_bound <= Z.abs z)%Z ->
       change_checker (PyInt z) "folder" initial_world
       = (Raise OverflowError, initial_world).
Proof.
  apply (string_rule_raises_on_non_numbers "folder" initial_world).
  reflexivity.
Defined.

(** ** More on validation *)

Lemma not_rejected_forallb df idx :
  (forall p, In p idx -> rejected df p = false) ->
  forallb (fun p => negb (rejected df p)) idx = true.
Proof.
  intros H. apply forallb_forall. intros p Hp. now rewrite (H p Hp).
Qed.

(** X12.  [validate_on_unequal_cells] returns [True] exactly when the
    check accepts every listed cell, and then it has printed nothing
    and left the queue and the rest of the state as they were; the
    empty list is the trivial case. *)
Theorem validation_passes_iff_every_cell_is_accepted
    (idx : list (nat * nat)) (df : DataFrame) (w : world) :
  validate_on_unequal_cells idx df w = (Return true, w)
  <-> forall p, In p idx -> fst (cell_check df p) = Return true.
Proof.
  pose proof (validate_on_unequal_cells_spec idx df w) as Hs. split.
  - intros H. rewrite H in Hs. destruct Hs as (Hret & Hb & _).
    intros p Hp. destruct (Hret p Hp) as [b Hpb]. rewrite Hpb.
    symmetry in Hb. rewrite forallb_forall in Hb.
    specialize (Hb p Hp). unfold rejected in Hb. rewrite Hpb in Hb.
    now destruct b.
  - intros Hall.
    destruct (validate_on_unequal_cells idx df w) as [[b|e] w'].
    + destruct Hs as (_ & Hb & Hw).
      rewrite not_rejected_forallb in Hb.
      * subst b. now subst w'.
      * intros p Hp. unfold rejected. now rewrite (Hall p Hp).
    + destruct Hs as (p & Hp & He). rewrite (Hall p Hp) in He.
      discriminate.
Qed.

(** The first loop when a check raises: the cells before it have been
    checked, and the messages of the rejected ones stay queued. *)
Lemma collect_cell_checks_raise df idx :
  forall w e w',
    collect idx (fun pair =>
      v <- lift (iloc df (fst pair) (snd pair)) ;;
      column <- lift (index (columns df) (snd pair)) ;;
      change_checker v column) w = (Raise e, w') ->
    exists done p rest,
      idx = done ++ p :: rest
      /\ (forall q, In q done -> exists b, fst (cell_check df q) = Return b)
      /\ fst (cell_check df p) = Raise e
      /\ w' = set_errors
                (ERROR_MESSAGES w
                 ++ map (diagnostic_of df) (filter (rejected df) done)) w.
Proof.
  induction idx as [|p idx IH]; intros w e w' H; [discriminate H|].
  cbn [collect] in H. unfold bind at 1 in H. rewrite cell_check_bind in H.
  destruct (cell_check_cases df p) as [Hc | [[m Hc] | [e0 Hc]]].
  - assert (Hr : rejected df p = false)
      by (unfold rejected; now rewrite Hc).
    rewrite Hc in H. cbn [fst snd] in H. rewrite set_errors_app_nil in H.
    unfold bind at 1 in H.
    destruct (collect idx _ w) as [[valid|e1] w1] eqn:Hcol;
      [discriminate H|].
    inversion H; subst e1 w1.
    destruct (IH w e w' Hcol) as (done & q & rest & -> & Hd & Hq & ->).
    exists (p :: done), q, rest. repeat split; auto.
    + intros x [Hx|Hx]; [|now apply Hd].
      subst x. rewrite Hc. cbn [fst]. eauto.
    + cbn [filter]. now rewrite Hr.
  - assert (Hr : rejected df p = true)
      by (unfold rejected; now rewrite Hc).
    assert (Hm : diagnostic_of df p = m)
      by (unfold diagnostic_of; now rewrite Hc).
    rewrite Hc in H. cbn [fst snd] in H. unfold bind at 1 in H.
    destruct (collect idx _ _) as [[valid|e1] w1] eqn:Hcol;
      [discriminate H|].
    inversion H; subst e1 w1.
    destruct (IH _ e w' Hcol) as (done & q & rest & -> & Hd & Hq & ->).
    exists (p :: done), q, rest. repeat split; auto.
    + intros x [Hx|Hx]; [|now apply Hd].
      subst x. rewrite Hc. cbn [fst]. eauto.
    + cbn [filter]. rewrite Hr. cbn [map]. rewrite Hm.
      cbn [ERROR_MESSAGES set_errors]. now rewrite <- app_assoc.
  - rewrite Hc in H. cbn [fst snd] in H. rewrite set_errors_app_nil in H.
    inversion H; subst e0 w'.
    exists [], p, idx. repeat split.
    + intros q [].
    + now rewrite Hc.
    + cbn. now rewrite set_errors_app_nil.
Qed.

(** X13.  When [validate_on_unequal_cells] raises, it does so in the
    first loop, at the first cell whose check raises: nothing has been
    printed, and the messages of the cells rejected before that cell
    are left in the queue, where a later report would find them. *)
Theorem validation_raise_leaves_messages_queued
    (idx : list (nat * nat)) (df : DataFrame) (w w' : world) (e : exn) :
  validate_on_unequal_cells idx df w = (Raise e, w') ->
  exists done p rest,
    idx = done ++ p :: rest
    /\ (forall q, In q done -> exists b, fst (cell_check df q) = Return b)
    /\ fst (cell_check df p) = Raise e
    /\ w' = set_errors
              (ERROR_MESSAGES w
               ++ map (diagnostic_of df) (filter (rejected df) done)) w.
Proof.
  intros H. unfold validate_on_unequal_cells in H.
  unfold bind at 1 in H.
  pose proof (collect_cell_checks df idx w) as Hc.
  destruct (collect idx _ w) as [[valid|e1] w1] eqn:Hcol.
  - exfalso. destruct Hc as (Hret & -> & ->).
    rewrite forallb_map_id in H.
    destruct (forallb (fun p => negb (rejected df p)) idx);
      [discriminate H|].
    unfold bind at 1 in H. unfold print at 1 in H.
    unfold bind at 1 in H.
    rewrite report_loop in H by now rewrite length_map.
    rewrite combine_map_r in H.
    rewrite report_spec in H;
      [discriminate H
      |exact Hret
      |cbn [ERROR_MESSAGES set_stdout set_errors];
       rewrite length_app, length_map; lia].
  - inversion H; subst e1 w1.
    exact (collect_cell_checks_raise df idx w e w' Hcol).
Qed.

(** The theorem on a list whose first cell is rejected and whose second
    lies outside the frame. *)
Lemma validation_raise_leaves_messages_queued_witness :
  exists done p rest,
    [(0, 0); (0, 5)] = done ++ p :: rest
    /\ (forall q, In q done ->
          exists b, fst (cell_check id_edit_modified q) = Return b)
    /\ fst (cell_check id_edit_modified p) = Raise IndexError
    /\ set_errors [msg_acquisition_id] initial_world
       = set_errors
           (ERROR_MESSAGES initial_world
            ++ map (diagnostic_of id_edit_modified)
                 (filter (rejected id_edit_modified) done))
           initial_world.
Proof.
  apply (validation_raise_leaves_messages_queued
           [(0, 0); (0, 5)] id_edit_modified initial_world).
  reflexivity.
Defined.

Lemma length_flat_map_block df cells :
  length (flat_map (block df) cells) = 3 * length cells.
Proof.
  induction cells as [|c cells IH]; [reflexivity|].
  cbn [flat_map]. rewrite length_app, IH. cbn [block length]. lia.
Qed.

(** X14.  A validation that returns leaves the queue as long as it
    found it, and touches neither the provenance files nor the remote
    calls; when it returns [False] it has printed the heading and three
    lines for each rejected cell. *)
Theorem validation_is_balanced (idx : list (nat * nat)) (df : DataFrame)
    (w w' : world) (b : bool) :
  validate_on_unequal_cells idx df w = (Return b, w') ->
  length (ERROR_MESSAGES w') = length (ERROR_MESSAGES w)
  /\ provenance_files w' = provenance_files w
  /\ remote_calls w' = remote_calls w
  /\ length (stdout w')
     = length (stdout w)
       + (if b then 0
          else 1 + 3 * length (filter (rejected df) idx)).
Proof.
  intros H.
  pose proof (validate_on_unequal_cells_spec idx df w) as Hs.
  rewrite H in Hs. destruct Hs as (_ & _ & ->).
  destruct b; [repeat split; lia|].
  cbn [ERROR_MESSAGES stdout provenance_files remote_calls].
  repeat split.
  - rewrite length_skipn, length_app, length_map. lia.
  - rewrite length_app. cbn [length].
    rewrite length_flat_map_block, length_combine, length_app, length_map.
    lia.
Qed.

(** The theorem on the rejection scenario. *)
Lemma validation_is_balanced_witness :
  length (ERROR_MESSAGES
            (snd (validate_on_unequal_cells [(0, 0)] id_edit_modified
                    initial_world)))
  = length (ERROR_MESSAGES initial_world)
  /\ provenance_files
       (snd (validate_on_unequal_cells [(0, 0)] id_edit_modified
               initial_world))
     = provenance_files initial_world
  /\ remote_calls
       (snd (validate_on_unequal_cells [(0, 0)] id_edit_modified
               initial_world))
     = remote_calls initial_world
  /\ length (stdout
               (snd (validate_on_unequal_cells [(0, 0)] id_edit_modified
                       initial_world)))
     = length (stdout initial_world)
       + (1 + 3 * length (filter (rejected id_edit_modified) [(0, 0)])).
Proof.
  apply (validation_is_balanced [(0, 0)] id_edit_modified
           initial_world _ false).
  reflexivity.
Defined.

(** ** More on the apply phase *)

Lemma set_calls_app_nil (w : world) :
  set_calls (remote_calls w ++ []) w = w.
Proof. rewrite app_nil_r. now destruct w. Qed.

(** The loop body appends the calls of [cell_outcome] and does nothing
    else. *)
Lemma upload_cell_outcome df client pair w :
  upload_cell df client pair w
  = (fst (cell_outcome df client pair),
     set_calls (remote_calls w ++ snd (cell_outcome df client pair)) w).
Proof.
  unfold cell_outcome.
  destruct (loc df (fst pair) "acquisition.id") as [acquisition|e] eqn:Ha.
  2: { unfold upload_cell. rewrite Ha. cbn.
       now rewrite set_calls_app_nil. }
  destruct (loc df (fst pair) "type") as [file_type|e] eqn:Ht.
  2: { unfold upload_cell. rewrite Ha, Ht. cbn.
       now rewrite set_calls_app_nil. }
  destruct (client (py_str acquisition)) as [fw_object|] eqn:Hg.
  2: { unfold upload_cell. rewrite Ha, Ht.
       unfold bind at 1 2 3, lift at 1 2, client_get, bind at 1,
         log_call at 1.
       rewrite Hg. reflexivity. }
  destruct (index (columns df) (snd pair)) as [column|e] eqn:Hc.
  2: { unfold upload_cell. rewrite Ha, Ht, Hc.
       unfold bind at 1 2 3, lift at 1 2, client_get, bind at 1,
         log_call at 1.
       rewrite Hg. reflexivity. }
  destruct (iloc df (fst pair) (snd pair)) as [value|e] eqn:Hv.
  2: { unfold upload_cell. rewrite Ha, Ht, Hc, Hv.
       unfold bind at 1 2 3, lift at 1 2, client_get, bind at 1,
         log_call at 1.
       rewrite Hg. reflexivity. }
  rewrite (upload_cell_found df client pair w acquisition file_type
             fw_object column value Ha Ht Hg Hc Hv).
  now destruct (files_of_type fw_object file_type).
Qed.

Lemma eqb_info_classification (k : string) :
  String.eqb k "info" && String.eqb k "classification" = false.
Proof.
  destruct (String.eqb k "info") eqn:E; [|reflexivity].
  apply String.eqb_eq in E. now subst k.
Qed.

Lemma dispatch_shapes id i update :
  dispatch id i update = []
  \/ (exists d, dispatch id i update = [UpdateInfo id i d])
  \/ (exists d, dispatch id i update = [UpdateClassification id i d]).
Proof.
  destruct update as [v|k d]; cbn [dispatch]; [now left|].
  pose proof (eqb_info_classification k) as H.
  destruct (String.eqb k "info"), (String.eqb k "classification");
    try discriminate H; cbn [app]; eauto.
Qed.

(** X15.  Whatever the frame, the store and the coordinate, one pass of
    the loop body of [upload_to_flywheel] only appends to the remote
    calls: nothing at all, or one [get] alone, or one [get] followed by
    a single update, of the info or of the classification and never of
    both; the queue, the output and the provenance files are left
    alone, whether the pass returns or raises. *)
Theorem one_cell_makes_at_most_one_update (df : DataFrame)
    (client : Client) (pair : nat * nat) (w : world) :
  exists cs,
    snd (upload_cell df client pair w)
    = set_calls (remote_calls w ++ cs) w
    /\ (cs = []
        \/ exists id,
             cs = [Get id]
             \/ (exists i d, cs = [Get id; UpdateInfo id i d])
             \/ (exists i d, cs = [Get id; UpdateClassification id i d])).
Proof.
  rewrite upload_cell_outcome. cbn [snd].
  exists (snd (cell_outcome df client pair)). split; [reflexivity|].
  unfold cell_outcome.
  destruct (loc df (fst pair) "acquisition.id") as [acquisition|e];
    [|now left].
  destruct (loc df (fst pair) "type") as [file_type|e]; [|now left].
  right. exists (py_str acquisition).
  destruct (client (py_str acquisition)) as [fw_object|]; [|now left].
  destruct (index (columns df) (snd pair)) as [column|e]; [|now left].
  destruct (iloc df (fst pair) (snd pair)) as [value|e]; [|now left].
  destruct (files_of_type fw_object file_type) as [|f fs]; [now left|].
  cbn [snd].
  destruct (dispatch_shapes (py_str acquisition) (fst f)
              (create_nested_fw_dict (str_split underscore column) value))
    as [H | [[d H] | [d H]]]; rewrite H; eauto 6.
Qed.

Lemma for_each_app {A} (body : A -> M unit) (xs ys : list A) (w : world) :
  for_each (xs ++ ys) body w
  = match for_each xs body w with
    | (Return _, w1) => for_each ys body w1
    | (Raise e, w1) => (Raise e, w1)
    end.
Proof.
  revert w. induction xs as [|x xs IH]; intros w; [reflexivity|].
  cbn [app for_each]. unfold bind.
  destruct (body x w) as [[[]|e] w1]; [apply IH|reflexivity].
Qed.

(** X16.  The apply loop is sequential and keeps what it has done:
    applying a list of coordinates followed by another is applying the
    first list and then, if that returned, the second from the state
    reached; if a cell of the first list raises, the loop stops there
    with the calls made so far, and no later cell is attempted. *)
Theorem apply_loop_is_sequential (df : DataFrame) (client : Client)
    (xs ys : list (nat * nat)) (w : world) :
  upload_to_flywheel df (xs ++ ys) client w
  = match upload_to_flywheel df xs client w with
    | (Return _, w1) => upload_to_flywheel df ys client w1
    | (Raise e, w1) => (Raise e, w1)
    end.
Proof. unfold upload_to_flywheel. apply for_each_app. Qed.

Lemma set_calls_app (cs1 cs2 : list call) (w : world) :
  set_calls (remote_calls (set_calls (remote_calls w ++ cs1) w) ++ cs2)
            (set_calls (remote_calls w ++ cs1) w)
  = set_calls (remote_calls w ++ cs1 ++ cs2) w.
Proof. unfold set_calls. cbn. now rewrite app_assoc. Qed.

(** X17.  The apply loop never takes back a call and never touches the
    rest of the state: after it, returned or raised, the remote calls
    are the ones there were followed by the ones it made, and the
    queue, the output and the provenance files are as before. *)
Theorem apply_loop_only_appends_calls (df : DataFrame) (client : Client)
    (idx : list (nat * nat)) (w : world) :
  exists cs,
    snd (upload_to_flywheel df idx client w)
    = set_calls (remote_calls w ++ cs) w.
Proof.
  unfold upload_to_flywheel. revert w.
  induction idx as [|p idx IH]; intros w.
  - exists []. cbn. now rewrite set_calls_app_nil.
  - cbn [for_each]. unfold bind. rewrite upload_cell_outcome.
    destruct (fst (cell_outcome df client p)) as [[]|e].
    + destruct (IH (set_calls
                      (remote_calls w ++ snd (cell_outcome df client p))
                      w)) as [cs Hcs].
      exists (snd (cell_outcome df client p) ++ cs).
      rewrite Hcs. apply set_calls_app.
    + now exists (snd (cell_outcome df client p)).
Qed.

Lemma str_split_hd_dispatch id i column value :
  applied_column column = false ->
  dispatch id i (create_nested_fw_dict (str_split underscore column) value)
  = [].
Proof.
  unfold applied_column. intros H.
  destruct (str_split_cons underscore column) as (h & t & E).
  rewrite E in *. cbn [hd create_nested_fw_dict dispatch] in *.
  apply orb_false_iff in H as [-> ->]. reflexivity.
Qed.

Lemma index_In {A} (xs : list A) (i : nat) (x : A) :
  index xs i = Return x -> In x xs.
Proof.
  unfold index. destruct (nth_error xs i) eqn:E; [|discriminate].
  intros H. inversion H; subst. eapply nth_error_In; eauto.
Qed.

Lemma cell_outcome_no_update df client pair :
  Forall (fun column => applied_column column = false) (columns df) ->
  update_calls (snd (cell_outcome df client pair)) = [].
Proof.
  intros Hcols. unfold cell_outcome.
  destruct (loc df (fst pair) "acquisition.id") as [acquisition|e];
    [|reflexivity].
  destruct (loc df (fst pair) "type") as [file_type|e]; [|reflexivity].
  destruct (client (py_str acquisition)) as [fw_object|]; [|reflexivity].
  destruct (index (columns df) (snd pair)) as [column|e] eqn:Hc;
    [|reflexivity].
  destruct (iloc df (fst pair) (snd pair)) as [value|e]; [|reflexivity].
  destruct (files_of_type fw_object file_type) as [|f fs]; [reflexivity|].
  cbn [snd]. rewrite str_split_hd_dispatch; [reflexivity|].
  rewrite Forall_forall in Hcols. apply Hcols. eapply index_In; eauto.
Qed.

(** X18.  On a frame none of whose columns has [info] or
    [classification] as the first segment of its name, the apply loop
    makes no update call, whatever the coordinates and the store: the
    edits of such columns, accepted or not, never reach Flywheel. *)
Theorem only_info_and_classification_are_applied (df : DataFrame)
    (client : Client) (idx : list (nat * nat)) (w : world) :
  Forall (fun column => applied_column column = false) (columns df) ->
  update_calls (remote_calls (snd (upload_to_flywheel df idx client w)))
  = update_calls (remote_calls w).
Proof.
  intros Hcols. unfold upload_to_flywheel. revert w.
  induction idx as [|p idx IH]; intros w; [reflexivity|].
  cbn [for_each]. unfold bind. rewrite upload_cell_outcome.
  assert (Hw : update_calls
                 (remote_calls
                    (set_calls
                       (remote_calls w ++ snd (cell_outcome df client p))
                       w))
               = update_calls (remote_calls w)).
  { cbn [remote_calls set_calls]. unfold update_calls.
    rewrite filter_app.
    fold (update_calls (snd (cell_outcome df client p))).
    rewrite (cell_outcome_no_update df client p Hcols).
    apply app_nil_r. }
  destruct (fst (cell_outcome df client p)) as [[]|e].
  - rewrite IH. exact Hw.
  - exact Hw.
Qed.

(** The theorem on the frame of the single-edit scenario, with both of
    its coordinates of row 0 that are not the id. *)
Lemma only_info_and_classification_are_applied_witness :
  update_calls
    (remote_calls
       (snd (upload_to_flywheel single_edit_modified [(0, 1); (0, 2)]
               single_edit_store initial_world)))
  = update_calls (remote_calls initial_world).
Proof.
  apply only_info_and_classification_are_applied.
  repeat constructor.
Defined.

(** X19.  For a column named [info_] followed by a path, a cell whose
    row, acquisition and file are found makes one [get] and one
    [update_info] on the first file of the row's type, the payload
    being the value nested under the segments of the path; for a column
    named [classification_] followed by a path it is one
    [update_classification] likewise. *)
Theorem prefixed_column_payload (df : DataFrame) (client : Client)
    (pair : nat * nat) (w : world) (acquisition file_type : pyval)
    (fw_object : Acquisition) (column path : string) (value : pyval)
    (i : nat) (f : FileEntry) (others : list (nat * FileEntry)) :
  loc df (fst pair) "acquisition.id" = Return acquisition ->
  loc df (fst pair) "type" = Return file_type ->
  client (py_str acquisition) = Some fw_object ->
  index (columns df) (snd pair) = Return column ->
  iloc df (fst pair) (snd pair) = Return value ->
  files_of_type fw_object file_type = (i, f) :: others ->
  (column = ("info_" ++ path)%string ->
   upload_cell df client pair w
   = (Return tt,
      set_calls
        (remote_calls w
         ++ [ Get (py_str acquisition);
              UpdateInfo (py_str acquisition) i
                (create_nested_fw_dict (str_split underscore path) value)
            ]) w))
  /\ (column = ("classification_" ++ path)%string ->
      upload_cell df client pair w
      = (Return tt,
         set_calls
           (remote_calls w
            ++ [ Get (py_str acquisition);
                 UpdateClassification (py_str acquisition) i
                   (create_nested_fw_dict (str_split underscore path)
                                          value) ]) w)).
Proof.
  intros Ha Ht Hg Hc Hv Hf.
  rewrite (upload_cell_found df client pair w acquisition file_type
             fw_object column value Ha Ht Hg Hc Hv), Hf.
  cbn [fst]. split; intros ->.
  - replace (str_split underscore ("info_" ++ path)%string)
      with ("info" :: str_split underscore path).
    + reflexivity.
    + reflexivity.
  - replace (str_split underscore ("classification_" ++ path)%string)
      with ("classification" :: str_split underscore path).
    + reflexivity.
    + reflexivity.
Qed.

(** A frame with an edited [classification_Intent] cell. *)
Lemma prefixed_column_payload_witness :
  upload_cell
    (mkDataFrame ["acquisition.id"; "type"; "classification_Intent"]
                 [[PyInt 123; PyStr "nifti"; PyStr "Functional"]])
    single_edit_store (0, 2) initial_world
  = (Return tt,
     set_calls
       [ Get "123";
         UpdateClassification "123" 1
           (Dict "Intent" (Leaf (PyStr "Functional"))) ]
       initial_world).
Proof.
  exact (proj2
           (prefixed_column_payload
              (mkDataFrame
                 ["acquisition.id"; "type"; "classification_Intent"]
                 [[PyInt 123; PyStr "nifti"; PyStr "Functional"]])
              single_edit_store (0, 2) initial_world
              (PyInt 123) (PyStr "nifti") acquisition_123
              "classification_Intent" "Intent" (PyStr "Functional")
              1 (mkFile (PyStr "nifti")) []
              eq_refl eq_refl eq_refl eq_refl eq_refl eq_refl)
           eq_refl).
Defined.

Lemma loc_missing_column df r name :
  position name (columns df) = None -> loc df r name = Raise KeyError.
Proof.
  intros H. unfold loc. rewrite H.
  now destruct (nth_error (values df) r).
Qed.

(** X20.  If the frame has no [acquisition.id] column, or has it but no
    [type] column, the apply loop raises [KeyError] at its first
    coordinate before any call on the store, and goes no further. *)
Theorem apply_needs_id_and_type_columns (df : DataFrame)
    (client : Client) (p : nat * nat) (rest : list (nat * nat))
    (w : world) :
  position "acquisition.id" (columns df) = None
  \/ ((exists acquisition,
         loc df (fst p) "acquisition.id" = Return acquisition)
      /\ position "type" (columns df) = None) ->
  upload_to_flywheel df (p :: rest) client w = (Raise KeyError, w).
Proof.
  intros H. unfold upload_to_flywheel. cbn [for_each]. unfold bind at 1.
  rewrite upload_cell_outcome. unfold cell_outcome.
  destruct H as [Hid | [[acquisition Hacq] Htype]].
  - rewrite (loc_missing_column df (fst p) _ Hid). cbn.
    now rewrite set_calls_app_nil.
  - rewrite Hacq, (loc_missing_column df (fst p) _ Htype). cbn.
    now rewrite set_calls_app_nil.
Qed.

(** The theorem on a frame without the [type] column. *)
Lemma apply_needs_id_and_type_columns_witness :
  upload_to_flywheel
    (mkDataFrame ["acquisition.id"; "info_BIDS_Task"]
                 [[PyInt 123; PyStr "rest"]])
    [(0, 1)] single_edit_store initial_world
  = (Raise KeyError, initial_world).
Proof.
  apply apply_needs_id_and_type_columns.
  right. split; [exists (PyInt 123)|]; reflexivity.
Defined.

(** X21.  If the store does not know the row's acquisition, the apply
    loop raises the client's exception right after the [get], with no
    update made, and goes no further. *)
Theorem apply_stops_at_an_unknown_acquisition (df : DataFrame)
    (client : Client) (p : nat * nat) (rest : list (nat * nat))
    (w : world) (acquisition file_type : pyval) :
  loc df (fst p) "acquisition.id" = Return acquisition ->
  loc df (fst p) "type" = Return file_type ->
  client (py_str acquisition) = None ->
  upload_to_flywheel df (p :: rest) client w
  = (Raise ApiException,
     set_calls (remote_calls w ++ [Get (py_str acquisition)]) w).
Proof.
  intros Ha Ht Hg. unfold upload_to_flywheel. cbn [for_each].
  unfold bind at 1. rewrite upload_cell_outcome. unfold cell_outcome.
  now rewrite Ha, Ht, Hg.
Qed.

(** The theorem on a store that knows no acquisition. *)
Lemma apply_stops_at_an_unknown_acquisition_witness :
  upload_to_flywheel info_edit_modified [(0, 2); (0, 1)] (fun _ => None)
    initial_world
  = (Raise ApiException, set_calls [Get "123"] initial_world).
Proof.
  apply (apply_stops_at_an_unknown_acquisition info_edit_modified
           (fun _ => None) (0, 2) [(0, 1)] initial_world
           (PyInt 123) (PyStr "nifti")); reflexivity.
Defined.

(** ** Update paths *)

Lemma join_cons sep x h t :
  join sep (x :: h :: t) = (x ++ String sep (join sep (h :: t)))%string.
Proof. reflexivity. Qed.

Lemma join_str_split (sep : ascii) (s : string) :
  join sep (str_split sep s) = s.
Proof.
  induction s as [|c s IH]; [reflexivity|].
  cbn [str_split].
  destruct (str_split_cons sep s) as (h & t & E). rewrite E in *.
  destruct (Ascii.eqb c sep) eqn:Ec.
  - apply Ascii.eqb_eq in Ec. subst c.
    rewrite join_cons, IH. reflexivity.
  - destruct t as [|h' t].
    + cbn [join] in *. now rewrite IH.
    + rewrite join_cons in *. cbn [String.append]. now rewrite IH.
Qed.

Lemma str_split_segments (sep : ascii) (s : string) :
  length (str_split sep s) = S (count_char sep s)
  /\ Forall (fun segment => contains sep segment = false)
            (str_split sep s).
Proof.
  induction s as [|c s (IHl & IHc)].
  - cbn. split; [reflexivity|]. repeat constructor.
  - cbn [str_split count_char].
    destruct (str_split_cons sep s) as (h & t & E). rewrite E in *.
    cbn [length] in IHl.
    destruct (Ascii.eqb c sep) eqn:Ec.
    + cbn [length]. split; [lia|].
      constructor; [reflexivity|exact IHc].
    + cbn [length]. split; [lia|].
      inversion IHc; subst. constructor; [|assumption].
      cbn [contains]. rewrite Ec. assumption.
Qed.

(** X22.  Splitting a column name on a separator loses nothing:
    joining the segments with the separator gives the name back, there
    is one segment more than there are separators in the name, and no
    segment contains the separator. *)
Theorem split_and_join_round_trip (sep : ascii) (s : string) :
  join sep (str_split sep s) = s
  /\ length (str_split sep s) = S (count_char sep s)
  /\ Forall (fun segment => contains sep segment = false)
            (str_split sep s).
Proof.
  split; [apply join_str_split|].
  destruct (str_split_segments sep s) as [Hlen Hsep].
  split; [exact Hlen|exact Hsep].
Qed.

(** X23.  The nested update dictionary holds what it was built from and
    nothing else: its keys, from the top down, are the path, the value
    at the bottom is the value given, and following the path leads to
    that value; so for a column name the dictionary built from its
    segments spells the name back. *)
Theorem nested_dict_round_trip (tree_list : list string) (value : pyval)
    (column : string) :
  dict_path (create_nested_fw_dict tree_list value) = tree_list
  /\ dict_leaf (create_nested_fw_dict tree_list value) = value
  /\ lookup tree_list (create_nested_fw_dict tree_list value)
     = Some (Leaf value)
  /\ join underscore
       (dict_path
          (create_nested_fw_dict (str_split underscore column) value))
     = column.
Proof.
  assert (H : dict_path (create_nested_fw_dict tree_list value) = tree_list
              /\ dict_leaf (create_nested_fw_dict tree_list value) = value
              /\ lookup tree_list (create_nested_fw_dict tree_list value)
                 = Some (Leaf value)).
  { induction tree_list as [|k l (IH1 & IH2 & IH3)]; cbn;
      [repeat split|].
    rewrite IH1, IH2, String.eqb_refl. repeat split. exact IH3. }
  destruct H as (H1 & H2 & H3). repeat split; auto.
  assert (Hp : forall l, dict_path (create_nested_fw_dict l value) = l).
  { induction l as [|k l IH]; cbn; [reflexivity|]. now rewrite IH. }
  rewrite Hp. apply join_str_split.
Qed.

(** ** The whole run *)

(** X24.  Running [main] on a frame and an identical copy finds no
    difference, prints no diagnostic and makes no remote call, for any
    frame and any store: it writes an empty provenance log, announces
    the upload and is done. *)
Theorem unchanged_table_runs_clean (df : DataFrame) (fw : Client) :
  main df df fw initial_world
  = (Return tt,
     mkWorld []
       ["Changes appear to be valid! Uploading..."; "Done!"] [[]] []).
Proof.
  unfold main. unfold bind at 1.
  rewrite get_unequal_cells_same_shape by reflexivity.
  rewrite unequal_indices_self. reflexivity.
Qed.

(** X25.  On two frames of different shapes [main] raises the
    shape-mismatch exception at once: nothing is printed, validated or
    sent. *)
Theorem mismatched_tables_abort_the_run (df_original df_modified : DataFrame)
    (fw : Client) (w : world) :
  shape df_original <> shape df_modified ->
  main df_original df_modified fw w = (Raise ShapeMismatch, w).
Proof.
  intros Hne. unfold main, bind, get_unequal_cells.
  destruct (Nat.eqb (fst (shape df_original)) (fst (shape df_modified))
            && Nat.eqb (snd (shape df_original))
                       (snd (shape df_modified))) eqn:Hs.
  - apply shape_eqb in Hs. contradiction.
  - reflexivity.
Qed.

(** The theorem on a frame of two columns against one of three. *)
Lemma mismatched_tables_abort_the_run_witness :
  main
    (mkDataFrame ["acquisition.id"; "type"] [[PyInt 123; PyStr "nifti"]])
    single_edit_modified single_edit_store initial_world
  = (Raise ShapeMismatch, initial_world).
Proof.
  apply mismatched_tables_abort_the_run. cbn. discriminate.
Defined.

Lemma validate_all_accepted idx df w :
  (forall p, In p idx -> fst (cell_check df p) = Return true) ->
  validate_on_unequal_cells idx df w = (Return true, w).
Proof.
  intros Hall.
  pose proof (validate_on_unequal_cells_spec idx df w) as Hs.
  destruct (validate_on_unequal_cells idx df w) as [[b|e] w'].
  - destruct Hs as (_ & Hb & Hw).
    rewrite not_rejected_forallb in Hb.
    + subst b. now subst w'.
    + intros p Hp. unfold rejected. now rewrite (Hall p Hp).
  - destruct Hs as (p & Hp & He). rewrite (Hall p Hp) in He.
    discriminate.
Qed.

(** X26.  When the check accepts every cell in which the two frames
    differ, [main] goes on to the apply phase with exactly the
    coordinates of the diff: from the state left by the diff it
    announces the upload, runs [upload_to_flywheel] on the modified
    frame and those coordinates, and prints [Done!] if that
    returned. *)
Theorem accepted_changes_are_all_applied
    (df_original df_modified : DataFrame) (fw : Client) :
  shape df_original = shape df_modified ->
  rectangular df_original ->
  (forall p, In p (unequal_indices df_original df_modified) ->
             fst (cell_check df_modified p) = Return true) ->
  exists log,
    main df_original df_modified fw initial_world
    = (print "Changes appear to be valid! Uploading..." ;;
       upload_to_flywheel df_modified
         (unequal_indices df_original df_modified) fw ;;
       print "Done!")
        (set_provenance [log] initial_world).
Proof.
  intros Hs Hrect Hall.
  destruct (get_unequal_cells_returns df_original df_modified true
              initial_world Hs Hrect) as [prov Hdiff].
  pose proof (get_unequal_cells_same_shape df_original df_modified true
                initial_world Hs) as Hunf.
  rewrite Hdiff in Hunf. unfold bind at 1 2 in Hunf.
  destruct (collect _ _ initial_world) as [[lst|e] w1] eqn:Hcol;
    [|discriminate Hunf].
  match type of Hcol with
  | collect ?xs ?f _ = _ =>
      pose proof (collect_stateless f (prov_row_of df_original df_modified)
                    xs (prov_row_of_bind df_original df_modified)
                    initial_world) as Hw
  end.
  rewrite Hcol in Hw. cbn [snd] in Hw. subst w1.
  cbn in Hunf. inversion Hunf as [Hprov].
  exists lst.
  unfold main. unfold bind at 1. rewrite Hdiff, <- Hprov.
  unfold bind at 1.
  rewrite (validate_all_accepted _ _ _ Hall).
  reflexivity.
Qed.

(** The theorem on the single-edit scenario. *)
Lemma accepted_changes_are_all_applied_witness :
  exists log,
    main single_edit_original single_edit_modified single_edit_store
         initial_world
    = (print "Changes appear to be valid! Uploading..." ;;
       upload_to_flywheel single_edit_modified
         (unequal_indices single_edit_original single_edit_modified)
         single_edit_store ;;
       print "Done!")
        (set_provenance [log] initial_world).
Proof.
  apply accepted_changes_are_all_applied.
  - reflexivity.
  - unfold rectangular. cbn. repeat constructor.
  - intros p [<-|[]]. reflexivity.
Defined.

(** ** Lists in cells *)

Lemma lstrip_no_leading_space s : starts_with_space (lstrip s) = false.
Proof.
  induction s as [|c s IH]; [reflexivity|].
  cbn [lstrip]. destruct (is_space c) eqn:E; [exact IH|].
  cbn. exact E.
Qed.

Lemma rstrip_no_trailing_space s : ends_with_space (rstrip s) = false.
Proof.
  induction s as [|c s IH]; [reflexivity|].
  cbn [rstrip]. destruct (rstrip s) as [|d r] eqn:E.
  - destruct (is_space c) eqn:Ec; [reflexivity|]. cbn. exact Ec.
  - cbn [ends_with_space]. exact IH.
Qed.

Lemma rstrip_keeps_leading s :
  starts_with_space s = false -> starts_with_space (rstrip s) = false.
Proof.
  destruct s as [|c s]; [reflexivity|].
  cbn [starts_with_space rstrip]. intros Hc.
  destruct (rstrip s); [rewrite Hc|]; cbn; exact Hc.
Qed.

Lemma contains_lstrip c s :
  contains c s = false -> contains c (lstrip s) = false.
Proof.
  induction s as [|a s IH]; [reflexivity|].
  cbn [contains lstrip]. intros H.
  apply orb_false_iff in H as [Ha Hs].
  destruct (is_space a); [now apply IH|].
  cbn [contains]. now rewrite Ha, Hs.
Qed.

Lemma contains_rstrip c s :
  contains c s = false -> contains c (rstrip s) = false.
Proof.
  induction s as [|a s IH]; [reflexivity|].
  cbn [contains rstrip]. intros H.
  apply orb_false_iff in H as [Ha Hs].
  specialize (IH Hs).
  destruct (rstrip s) as [|d r].
  - destruct (is_space a); [reflexivity|]. cbn [contains].
    now rewrite Ha.
  - cbn [contains] in *. now rewrite Ha, IH.
Qed.

(** X27.  [relist_item] leaves anything that is not a string as it is;
    a string it turns into a list with one item more than the string
    has commas, and no item contains a comma or begins or ends with
    white space. *)
Theorem relist_item_splits_and_trims (v : pyval) :
  match relist_item v with
  | Unchanged u => u = v /\ is_str v = false
  | Items items =>
      is_str v = true
      /\ length items = S (count_char comma (py_str v))
      /\ Forall (fun item =>
                   contains comma item = false
                   /\ starts_with_space item = false
                   /\ ends_with_space item = false) items
  end.
Proof.
  destruct v as [s|z|b|f|]; cbn [relist_item]; try (split; reflexivity).
  destruct (str_split_segments comma s) as (Hlen & Hsep).
  cbn [py_str is_str]. split; [reflexivity|].
  split; [now rewrite length_map|].
  apply Forall_map. eapply Forall_impl; [|exact Hsep].
  intros segment Hseg. unfold strip. repeat split.
  - now apply contains_rstrip, contains_lstrip.
  - apply rstrip_keeps_leading, lstrip_no_leading_space.
  - apply rstrip_no_trailing_space.
Qed.

(** X28.  The diff and the validation fit together: on a modified frame
    as read from a CSV file, validating the coordinates of a diff
    against any original never raises; every coordinate lies in the
    frame, has a column name, and holds a value the rules can judge. *)
Theorem validating_a_diff_never_raises (df_original df_modified : DataFrame)
    (w : world) :
  csv_frame df_modified ->
  exists b w',
    validate_on_unequal_cells
      (unequal_indices df_original df_modified) df_modified w
    = (Return b, w').
Proof.
  intros Hcsv.
  pose proof (validate_on_unequal_cells_spec
                (unequal_indices df_original df_modified) df_modified w)
    as Hs.
  destruct (validate_on_unequal_cells _ df_modified w) as [[b|e] w'];
    [eauto|].
  destruct Hs as ([r c] & Hin & He).
  apply In_unequal_indices in Hin as (v1 & v2 & _ & H2 & _).
  destruct (csv_frame_cell_check df_modified r c v2 Hcsv H2) as [b Hb].
  congruence.
Qed.

(** The theorem on the rejection scenario. *)
Lemma validating_a_diff_never_raises_witness :
  exists b w',
    validate_on_unequal_cells
      (unequal_indices id_edit_original id_edit_modified)
      id_edit_modified initial_world
    = (Return b, w').
Proof.
  apply validating_a_diff_never_raises.
  split; [unfold rectangular|]; cbn; repeat constructor.
Defined.
